(** * Cerebro: the agent graph, the tool registry, thread identifiers,
      the configuration object and the chat view, as Rocq functions.

    Every definition follows one function of the Python sources
    ([graph.py], [context.py], [state.py], [tools.py], [prompts.py],
    [chat.py]) and keeps its name.  Exceptions are values of [exn] carried
    by [result]; objects mutated in place ([ChatApp], [MessageWidget]) are
    records threaded through the functions that mutate them. *)

From Stdlib Require Import Ascii String.
From stdpp Require Import base option list strings pretty gmap.

(** ** Python values, exceptions and string helpers *)

Module Py.

(** A raised exception: the class name and [str(exc)]. *)
Record exn := Exn { exc_type : string; exc_str : string }.

Inductive result (A : Type) : Type :=
| Ok (a : A)
| Raise (e : exn).
Arguments Ok {A} a.
Arguments Raise {A} e.

(** Sequencing: the first exception raised ends the computation. *)
#[global] Instance result_bind : MBind result := fun A B k r =>
  match r with
  | Ok a => k a
  | Raise e => Raise e
  end.

(** The values a [Context] field can hold: [str] and [int]. *)
Inductive pyval :=
| PStr (s : string)
| PInt (z : Z).

(** Python [==] on these values: equal only within one type. *)
Definition py_eq (a b : pyval) : bool :=
  match a, b with
  | PStr s, PStr t => String.eqb s t
  | PInt x, PInt y => Z.eqb x y
  | _, _ => false
  end.

Definition is_str (v : pyval) : bool :=
  match v with PStr _ => true | PInt _ => false end.

(** One character as a string, for the characters a Rocq literal cannot
    hold directly. *)
Definition chr (n : nat) : string := String (ascii_of_nat n) EmptyString.
Definition dquote : string := chr 34.
Definition newline : string := chr 10.

(** [str.upper] on ASCII letters. *)
Definition upper_ascii (c : ascii) : ascii :=
  let n := nat_of_ascii c in
  if (97 <=? n)%nat && (n <=? 122)%nat then ascii_of_nat (n - 32) else c.

Fixpoint upper (s : string) : string :=
  match s with
  | EmptyString => EmptyString
  | String c r => String (upper_ascii c) (upper r)
  end.

(** [str.strip].  A [str] is held as its UTF-8 encoding, so the white
    space of Python ([str.isspace]) is met as one, two or three bytes:
    U+0009 to U+000D, U+001C to U+0020; U+0085 and U+00A0; U+1680,
    U+2000 to U+200A, U+2028, U+2029, U+202F, U+205F and U+3000. *)
Definition is_space (c : ascii) : bool :=
  let n := nat_of_ascii c in
  ((9 <=? n)%nat && (n <=? 13)%nat) || ((28 <=? n)%nat && (n <=? 32)%nat).

Definition is_space2 (a b : ascii) : bool :=
  let x := nat_of_ascii a in
  let y := nat_of_ascii b in
  (x =? 194)%nat && ((y =? 133)%nat || (y =? 160)%nat).

Definition is_space3 (a b c : ascii) : bool :=
  let x := nat_of_ascii a in
  let y := nat_of_ascii b in
  let z := nat_of_ascii c in
  ((x =? 225)%nat && (y =? 154)%nat && (z =? 128)%nat)
  || ((x =? 226)%nat && (y =? 128)%nat
      && (((128 <=? z)%nat && (z <=? 138)%nat)
          || (z =? 168)%nat || (z =? 169)%nat || (z =? 175)%nat))
  || ((x =? 226)%nat && (y =? 129)%nat && (z =? 159)%nat)
  || ((x =? 227)%nat && (y =? 128)%nat && (z =? 128)%nat).

(** What is left of [s] behind one white space character at its head. *)
Definition skip_space (s : string) : option string :=
  match s with
  | EmptyString => None
  | String a r =>
      if is_space a then Some r
      else match r with
           | EmptyString => None
           | String b r2 =>
               if is_space2 a b then Some r2
               else match r2 with
                    | EmptyString => None
                    | String c r3 => if is_space3 a b c then Some r3 else None
                    end
           end
  end.

Fixpoint lstrip (s : string) : string :=
  match s with
  | EmptyString => EmptyString
  | String a r =>
      if is_space a then lstrip r
      else match r with
           | EmptyString => s
           | String b r2 =>
               if is_space2 a b then lstrip r2
               else match r2 with
                    | EmptyString => s
                    | String c r3 => if is_space3 a b c then lstrip r3 else s
                    end
           end
  end.

(** The text is cut where the rest is white space only. *)
Fixpoint rstrip (s : string) : string :=
  match s with
  | EmptyString => EmptyString
  | String a r =>
      match lstrip s with
      | EmptyString => EmptyString
      | _ => String a (rstrip r)
      end
  end.

Definition strip (s : string) : string := lstrip (rstrip s).

(** The code points [str.isspace] accepts, and the UTF-8 encoding of a
    code point, to state what [strip] removes. *)
Definition unicode_white_space : list N :=
  [9; 10; 11; 12; 13; 28; 29; 30; 31; 32; 133; 160; 5760;
   8192; 8193; 8194; 8195; 8196; 8197; 8198; 8199; 8200; 8201; 8202;
   8232; 8233; 8239; 8287; 12288]%N.

Definition byte (n : N) : string := String (ascii_of_N n) EmptyString.

Definition utf8 (cp : N) : string :=
  if (cp <? 128)%N then byte cp
  else if (cp <? 2048)%N then
    byte (192 + cp / 64) +:+ byte (128 + cp mod 64)
  else if (cp <? 65536)%N then
    byte (224 + cp / 4096) +:+ byte (128 + (cp / 64) mod 64) +:+ byte (128 + cp mod 64)
  else
    byte (240 + cp / 262144) +:+ byte (128 + (cp / 4096) mod 64)
    +:+ byte (128 + (cp / 64) mod 64) +:+ byte (128 + cp mod 64).

(** One white space character, encoded. *)
Definition white (w : string) : Prop :=
  exists cp, cp ∈ unicode_white_space /\ w = utf8 cp.

(** A text of white space only (the empty text included). *)
Definition blank (s : string) : Prop :=
  exists cps, Forall (fun cp => cp ∈ unicode_white_space) cps /\
              s = foldr (fun cp rest => utf8 cp +:+ rest) "" cps.

(** A text that neither starts nor ends with a white space character. *)
Definition trimmed (s : string) : Prop :=
  forall w r, white w -> s <> w +:+ r /\ s <> r +:+ w.

(** Membership in the table of encodings, as a test. *)
Definition white_dec (w : string) : bool :=
  bool_decide (w ∈ map utf8 unicode_white_space).

(** No non-empty tail of the text is white space only. *)
Definition tight (t : string) : Prop :=
  forall p u, t = p +:+ u -> u <> "" -> lstrip u <> "".

(** A text of ASCII characters other than white space. *)
Fixpoint plain (s : string) : bool :=
  match s with
  | EmptyString => true
  | String c r => (nat_of_ascii c <? 128)%nat && negb (is_space c) && plain r
  end.

(** [str.startswith]. *)
Definition startswith (s p : string) : bool := String.prefix p s.

(** [sub in s]. *)
Fixpoint contains (s sub : string) : bool :=
  String.prefix sub s ||
  match s with
  | EmptyString => false
  | String _ r => contains r sub
  end.

(** ["\n".join(parts)]. *)
Fixpoint join (sep : string) (parts : list string) : string :=
  match parts with
  | [] => ""
  | [p] => p
  | p :: rest => p +:+ sep +:+ join sep rest
  end.

(** A number printed in at least [w] digits, zero filled ([%02d], [%04d]). *)
Definition zfill (w : nat) (n : nat) : string :=
  let d := pretty n in
  String.concat "" (replicate (w - String.length d) "0") +:+ d.

End Py.
Import Py.

(** ** context.py and prompts.py *)

Module Config.

(** [prompts.SYSTEM_PROMPT]; the backslash-newlines of the source literal
    join its lines. *)
Definition SYSTEM_PROMPT : string :=
  "You are Cerebro, a personal assistant with access to a local knowledge "
  +:+ "management system called " +:+ dquote +:+ "brain" +:+ dquote
  +:+ ". You can read and write todos, notes, projects, and daily "
  +:+ "notes through your tools. Help the user stay organised, capture ideas, plan work, and reflect "
  +:+ "on their progress. Be concise and direct."
  +:+ newline +:+ newline +:+ "System time: {system_time}".

(** The three dataclass fields, in declaration order. *)
Inductive field := system_prompt | model | max_search_results.

#[global] Instance field_eq_dec : EqDecision field.
Proof. solve_decision. Defined.

Definition fields : list field := [system_prompt; model; max_search_results].

Definition name (f : field) : string :=
  match f with
  | system_prompt => "system_prompt"
  | model => "model"
  | max_search_results => "max_search_results"
  end.

Definition default (f : field) : pyval :=
  match f with
  | system_prompt => PStr SYSTEM_PROMPT
  | model => PStr "anthropic/claude-haiku-4-5-20251001"
  | max_search_results => PInt 10
  end.

(** Every field is an [__init__] parameter. *)
Definition init (f : field) : bool := true.

(** A [Context] instance: its attribute values. *)
Definition Context := field -> pyval.

Definition getattr (self : Context) (f : field) : pyval := self f.

Definition setattr (self : Context) (f : field) (v : pyval) : Context :=
  fun g => if decide (g = f) then v else self g.

(** [os.environ]. *)
Abbreviation environ := (gmap string string).

(** [os.environ.get(key, default)]. *)
Definition environ_get (env : environ) (key : string) (dflt : pyval) : pyval :=
  match env !! key with
  | Some s => PStr s
  | None => dflt
  end.

(** The generated [__init__]: a keyword that is not passed takes the
    declared default. *)
Definition dataclass_init (kwargs : field -> option pyval) : Context :=
  fun f => match kwargs f with Some v => v | None => default f end.

(** One iteration of the loop of [__post_init__]. *)
Definition post_init_field (env : environ) (self : Context) (f : field) : Context :=
  if negb (init f) then self
  else if py_eq (getattr self f) (default f)
       then setattr self f (environ_get env (upper (name f)) (default f))
       else self.

Definition __post_init__ (env : environ) (self : Context) : Context :=
  foldl (post_init_field env) self fields.

(** The constructor call with keyword arguments [kwargs], run under
    environment [env]. *)
Definition new_Context (env : environ) (kwargs : field -> option pyval) : Context :=
  __post_init__ env (dataclass_init kwargs).

Definition no_kwargs : field -> option pyval := fun _ => None.

Definition kwarg (f : field) (v : pyval) : field -> option pyval :=
  fun g => if decide (g = f) then Some v else None.

End Config.

(** ** state.py, tools.py and graph.py *)

Module Graph.

Import Config.

(** A tool as the graph sees it: the name the model calls it by, and its
    description. *)
Record Tool := { tool_name : string; tool_description : string }.

(** [tools.web_search] and [tools.BASE_TOOLS]. *)
Definition web_search : Tool :=
  {| tool_name := "web_search";
     tool_description := "Search the web for current information using Tavily." |}.

Definition BASE_TOOLS : list Tool := [web_search].

(** The table by name that the prebuilt [ToolNode(tools)] keeps to find
    the tool of a call: it goes through [tools] in order and stores each
    tool under its name, so a later tool takes the place of an earlier
    one of the same name. *)
Definition tools_by_name (tools : list Tool) : gmap string Tool :=
  foldl (fun table t => <[tool_name t := t]> table) ∅ tools.

(** The message classes of [langchain_core.messages]. *)
Inductive message_class := HumanMessage | AIMessage | SystemMessage | ToolMessage.

#[global] Instance message_class_eq_dec : EqDecision message_class.
Proof. solve_decision. Defined.

(** [type(m).__name__]. *)
Definition class_name (c : message_class) : string :=
  match c with
  | HumanMessage => "HumanMessage"
  | AIMessage => "AIMessage"
  | SystemMessage => "SystemMessage"
  | ToolMessage => "ToolMessage"
  end.

Record ToolCall := { call_name : string; call_args : string; call_id : option string }.

(** A message; [tool_calls] is the attribute of [AIMessage] and is empty on
    the other classes. *)
Record Message := {
  class : message_class;
  id : option string;
  content : string;
  tool_calls : list ToolCall;
  tool_call_id : option string
}.

(** [isinstance(m, AIMessage)]. *)
Definition is_AIMessage (m : Message) : bool := bool_decide (class m = AIMessage).

(** The constructor call [AIMessage(id=i, content=c)]: no tool calls. *)
Definition new_AIMessage (i : option string) (c : string) : Message :=
  {| class := AIMessage; id := i; content := c; tool_calls := []; tool_call_id := None |}.

(** The chat input [{"role": "system", "content": c}]. *)
Definition system_input (c : string) : Message :=
  {| class := SystemMessage; id := None; content := c; tool_calls := []; tool_call_id := None |}.

(** [state.State]. *)
Record State := { messages : list Message; is_last_step : bool }.

(** Truth value of a list. *)
Definition truthy {A} (l : list A) : bool :=
  match l with [] => false | _ :: _ => true end.

(** The reducer [add_messages] that [state.py] attaches to [messages]: a
    new message whose id is already present replaces the message at the
    last position holding that id, any other message is appended.  A
    message without id is given a fresh uuid by the reducer, one that
    matches no other id: here its id stays [None] and never matches. *)
Definition same_id (a b : Message) : bool :=
  match id a, id b with
  | Some x, Some y => String.eqb x y
  | _, _ => false
  end.

Fixpoint replace_last (m : Message) (l : list Message) : option (list Message) :=
  match l with
  | [] => None
  | x :: r =>
      match replace_last m r with
      | Some r' => Some (x :: r')
      | None => if same_id x m then Some (m :: r) else None
      end
  end.

Definition add_message (l : list Message) (m : Message) : list Message :=
  match replace_last m l with
  | Some l' => l'
  | None => l ++ [m]
  end.

Definition add_messages (left right : list Message) : list Message :=
  foldl add_message left right.

(** No message of [l] carries the id of [m]. *)
Definition fresh_for (m : Message) (l : list Message) : Prop :=
  Forall (fun x => same_id x m = false) l.

Definition budget_exhausted : string :=
  "Sorry, I could not find an answer to your question in the specified number of steps.".

(** The edges [route_model_output] returns. *)
Definition END : string := "__end__".
Definition TOOLS : string := "tools".

(** [route_model_output]: [state.messages[-1]] raises [IndexError] on an
    empty list. *)
Definition route_model_output (state : State) : result string :=
  match last (messages state) with
  | None => Raise (Exn "IndexError" "list index out of range")
  | Some last_message =>
      if negb (is_AIMessage last_message) then
        Raise (Exn "ValueError"
                 ("Expected AIMessage in output edges, but got "
                  +:+ class_name (class last_message)))
      else if negb (truthy (tool_calls last_message)) then Ok END
      else Ok TOOLS
  end.

Section create_graph.

(** The chat model object, and what the graph calls on it and around it:
    [load_chat_model(name).bind_tools(tools)] of [cerebro.utils],
    [model.ainvoke(input)], [system_prompt.format(system_time=t)] and
    the prebuilt [ToolNode(tools)]. *)
Context {ChatModel : Type}.
Variable load_chat_model : pyval -> list Tool -> result ChatModel.
Variable ainvoke : ChatModel -> list Message -> result Message.
Variable format : pyval -> string -> result string.
Variable ToolNode : list Tool -> State -> result (list Message).

(** [create_graph(tools)]: [None] stands for the omitted argument. *)
Variable tools_arg : option (list Tool).

Definition tools : list Tool :=
  match tools_arg with
  | None => BASE_TOOLS
  | Some ts => ts
  end.

(** [call_model(state, runtime)]; [system_time] is
    [datetime.now(tz=UTC).isoformat()] at the call.  The value is the
    list under the key ["messages"] of the returned update. *)
Definition call_model (state : State) (context : Config.Context)
    (system_time : string) : result (list Message) :=
  model ← load_chat_model (context Config.model) tools;
  system_message ← format (context Config.system_prompt) system_time;
  response ← ainvoke model (system_input system_message :: messages state);
  if is_last_step state && truthy (tool_calls response) then
    Ok [new_AIMessage (id response) budget_exhausted]
  else Ok [response].

(** The model answers [response] to the input [call_model] builds from
    the messages [msgs] of its state. *)
Definition replies (msgs : list Message) (context : Config.Context)
    (system_time : string) (response : Message) : Prop :=
  exists model system_message,
    load_chat_model (context Config.model) tools = Ok model /\
    format (context Config.system_prompt) system_time = Ok system_message /\
    ainvoke model (system_input system_message :: msgs) = Ok response.

(** The compiled graph: [__start__ -> call_model], the conditional edge
    [route_model_output] after [call_model], and [tools -> call_model].
    Each node run is one step of the runtime, which supplies the managed
    value [is_last_step] for that step and merges the node's update into
    [messages] with the reducer. *)
Inductive node := n_call_model | n_tools.

Inductive outcome :=
| Finished (final : list Message) (visited : list node)
| Failed (e : exn) (visited : list node)
| Unfinished (visited : list node).

Variable context : Config.Context.
Variable is_last_step_at : nat -> bool.
Variable system_time_at : nat -> string.

Fixpoint run (fuel step : nat) (msgs : list Message) (visited : list node) : outcome :=
  match fuel with
  | O => Unfinished visited
  | S fuel' =>
      let state := {| messages := msgs; is_last_step := is_last_step_at step |} in
      let visited := visited ++ [n_call_model] in
      match call_model state context (system_time_at step) with
      | Raise e => Failed e visited
      | Ok update =>
          let msgs := add_messages msgs update in
          let state := {| messages := msgs; is_last_step := is_last_step_at (S step) |} in
          match route_model_output state with
          | Raise e => Failed e visited
          | Ok edge =>
              if String.eqb edge END then Finished msgs visited
              else
                let visited := visited ++ [n_tools] in
                match ToolNode tools state with
                | Raise e => Failed e visited
                | Ok update =>
                    run fuel' (S (S step)) (add_messages msgs update) visited
                end
          end
      end
  end.

(** A model that requests tool calls whatever the conversation, each
    reply under an id the conversation does not hold yet. *)
Definition keeps_requesting_tools : Prop :=
  forall step msgs, exists response,
    replies msgs context (system_time_at step) response /\
    class response = AIMessage /\
    tool_calls response <> [] /\
    fresh_for response msgs.

(** The nodes visited by [n] rounds of model call and tool execution. *)
Definition rounds (n : nat) : list node :=
  concat (replicate n [n_call_model; n_tools]).

End create_graph.

End Graph.

(** ** chat.py *)

Module Chat.

Import Graph.

(** *** Notifications and the application object *)

Inductive severity := information | warning | error.

(** One call of [self.notify(message, severity=..., timeout=...)]. *)
Record Notification := {
  notify_message : string;
  notify_severity : severity;
  notify_timeout : nat
}.

(** The attributes of [ChatApp] the modelled methods read or write;
    [notifications] lists the calls of [notify], oldest first, and
    [graph] holds the tool list the compiled graph was created with. *)
Record ChatApp {Client : Type} := {
  _mcp_client : option Client;
  graph : option (list Tool);
  thread_id : string;
  sub_title : string;
  notifications : list Notification
}.
Arguments ChatApp Client : clear implicits.

Definition notify {Client} (self : ChatApp Client) (message : string)
    (sev : severity) (timeout : nat) : ChatApp Client :=
  {| _mcp_client := _mcp_client self;
     graph := graph self;
     thread_id := thread_id self;
     sub_title := sub_title self;
     notifications := notifications self ++ [Build_Notification message sev timeout] |}.

Definition set_mcp_client {Client} (self : ChatApp Client) (c : Client) : ChatApp Client :=
  {| _mcp_client := Some c;
     graph := graph self;
     thread_id := thread_id self;
     sub_title := sub_title self;
     notifications := notifications self |}.

Definition set_graph {Client} (self : ChatApp Client) (ts : list Tool) : ChatApp Client :=
  {| _mcp_client := _mcp_client self;
     graph := Some ts;
     thread_id := thread_id self;
     sub_title := sub_title self;
     notifications := notifications self |}.

Definition set_thread {Client} (self : ChatApp Client) (t : string) : ChatApp Client :=
  {| _mcp_client := _mcp_client self;
     graph := graph self;
     thread_id := t;
     sub_title := "thread: " +:+ t;
     notifications := notifications self |}.

(** The server table passed to [MultiServerMCPClient]. *)
Record Connection := {
  server : string;
  transport : string;
  command : string;
  args : list string
}.

Definition local_brain : Connection :=
  {| server := "local-brain"; transport := "stdio"; command := "brain-mcp"; args := [] |}.

Section initialize.

(** What [_initialize] calls outside the repository: [shutil.which],
    the import of [langchain_mcp_adapters.client], the client
    constructor, [client.get_tools()], and the opening of the SQLite
    checkpointer.  A [Raise] of these is an instance of [Exception]. *)
Context {Client : Type}.
Variable which : string -> option string.
Variable import_client : result unit.
Variable MultiServerMCPClient : Connection -> result Client.
Variable get_tools : Client -> result (list Tool).
Variable open_checkpointer : result unit.

(** The body of the [try] of [_initialize]. *)
Definition connect_mcp (self : ChatApp Client) (tools : list Tool)
    : result (ChatApp Client * list Tool) :=
  _ ← import_client;
  client ← MultiServerMCPClient local_brain;
  let self := set_mcp_client self client in
  mcp_tools ← get_tools client;
  let tools := mcp_tools ++ tools in
  Ok (notify self
        ("brain-mcp connected (" +:+ pretty (length mcp_tools) +:+ " tools)")
        information 3,
      tools).

(** The attribute [_mcp_client] as the [try] body leaves it when it
    raises: assigned once the constructor has returned. *)
Definition client_after_failure (self : ChatApp Client) : ChatApp Client :=
  match import_client with
  | Raise _ => self
  | Ok _ =>
      match MultiServerMCPClient local_brain with
      | Raise _ => self
      | Ok client => set_mcp_client self client
      end
  end.

(** One of the three steps of the [try] body raises [exc]. *)
Definition discovery_fails (exc : exn) : Prop :=
  import_client = Raise exc \/
  (import_client = Ok () /\ MultiServerMCPClient local_brain = Raise exc) \/
  (exists client,
      import_client = Ok () /\
      MultiServerMCPClient local_brain = Ok client /\
      get_tools client = Raise exc).

(** Lines 164 to 199 of [_initialize]: the tool list handed to
    [create_graph], and the application with its notification. *)
Definition resolve_tools (self : ChatApp Client) : ChatApp Client * list Tool :=
  let tools := BASE_TOOLS in
  match which "brain-mcp" with
  | Some _ =>
      match connect_mcp self tools with
      | Ok r => r
      | Raise exc =>
          (notify (client_after_failure self)
             ("brain-mcp failed to connect: " +:+ exc_str exc) warning 6,
           tools)
      end
  | None =>
      (notify self
         "brain-mcp not found in PATH — running without brain tools" warning 6,
       tools)
  end.

(** [_initialize] from line 164 on: tools, then the checkpointer, then
    the graph.  The creation of the data directory before these steps,
    and [create_graph] and the focus of the input after them, are taken
    to return. *)
Definition _initialize (self : ChatApp Client) : result (ChatApp Client) :=
  let '(self, tools) := resolve_tools self in
  _ ← open_checkpointer;
  Ok (set_graph self tools).

End initialize.

(** *** Thread identifiers *)

(** [datetime.now(timezone.utc)]. *)
Record datetime := {
  year : nat; month : nat; day : nat;
  hour : nat; minute : nat; second : nat
}.

(** [strftime("%Y-%m-%d")]. *)
Definition strftime_Y_m_d (t : datetime) : string :=
  zfill 4 (year t) +:+ "-" +:+ zfill 2 (month t) +:+ "-" +:+ zfill 2 (day t).

(** [strftime("%Y%m%d-%H%M%S")]. *)
Definition strftime_Ymd_HMS (t : datetime) : string :=
  zfill 4 (year t) +:+ zfill 2 (month t) +:+ zfill 2 (day t) +:+ "-"
  +:+ zfill 2 (hour t) +:+ zfill 2 (minute t) +:+ zfill 2 (second t).

(** [_daily_thread_id()]: [now] is the clock, [thread_file] the text of
    [_THREAD_FILE] when the file exists. *)
Definition _daily_thread_id (now : datetime) (thread_file : option string) : string :=
  let today := strftime_Y_m_d now in
  let daily_id := "chat-" +:+ today in
  match thread_file with
  | Some text =>
      let saved := strip text in
      if startswith saved ("chat-" +:+ today) then saved else daily_id
  | None => daily_id
  end.

(** [ChatApp()]: the thread identifier is resolved at construction. *)
Definition new_ChatApp {Client} (now : datetime) (thread_file : option string)
    : ChatApp Client :=
  {| _mcp_client := None; graph := None;
     thread_id := _daily_thread_id now thread_file;
     sub_title := ""; notifications := [] |}.

(** [_save_thread_id(thread_id)]: the new state of [_THREAD_FILE]. *)
Definition _save_thread_id (thread_id : string) : option string := Some thread_id.

(** The identifier [action_new_thread] builds; [uuid_hex] is
    [uuid.uuid4().hex]. *)
Definition new_thread_id (now : datetime) (uuid_hex : string) : string :=
  "chat-" +:+ strftime_Ymd_HMS now +:+ "-" +:+ substring 0 6 uuid_hex.

Definition action_new_thread {Client} (self : ChatApp Client) (now : datetime)
    (uuid_hex : string) : ChatApp Client :=
  notify (set_thread self (new_thread_id now uuid_hex)) "New thread started" information 2.

(** *** The message widget *)

(** [MessageWidget]; [rendered] is the markup last handed to
    [Static.update] (or to the constructor of [Static]). *)
Record MessageWidget := {
  _role : string;
  _content : string;
  _tool_calls : list string;
  rendered : string
}.

Definition tool_hint (tool : string) : string := "[dim]  ↳ " +:+ tool +:+ "[/dim]".

(** [_build_markup(streaming)] on the attributes of the widget. *)
Definition _build_markup (role content : string) (tool_calls : list string)
    (streaming : bool) : string :=
  let header :=
    if String.eqb role "user" then "[bold #5bc0f8]You[/bold #5bc0f8]"
    else "[bold #7bc67e]Cerebro[/bold #7bc67e]" in
  let parts := [header; ""] in
  let parts := parts ++ map tool_hint tool_calls in
  let parts := if truthy tool_calls then parts ++ [""] else parts in
  let parts :=
    if negb (String.eqb content "") then parts ++ [content]
    else if streaming then parts ++ ["[dim]thinking…[/dim]"]
    else parts in
  join newline parts.

(** [MessageWidget(role, content)]. *)
Definition new_MessageWidget (role content : string) : MessageWidget :=
  {| _role := role; _content := content; _tool_calls := [];
     rendered := _build_markup role content [] false |}.

(** [set_content(content, tool_calls, streaming)]; [None] is the default
    of [tool_calls]. *)
Definition set_content (self : MessageWidget) (content : string)
    (tool_calls : option (list string)) (streaming : bool) : MessageWidget :=
  let tcs := match tool_calls with Some l => l | None => _tool_calls self end in
  {| _role := _role self; _content := content; _tool_calls := tcs;
     rendered := _build_markup (_role self) content tcs streaming |}.

(** *** Streaming a reply *)

(** A block of a list-valued chunk content: a dict with its ["type"] and
    ["text"] entries, or something that is not a dict. *)
Inductive block :=
| Dict (type text : option string)
| NotDict.

(** [getattr(chunk, "content", None)]. *)
Inductive chunk_content :=
| ContentStr (s : string)
| ContentList (blocks : list block)
| ContentOther.

(** The events of [astream_events] as [_send_message] reads them: the
    ["name"] entry of a tool start, the truthy ["chunk"] of a model stream
    event ([None] when absent or falsy), any other kind. *)
Inductive event :=
| on_tool_start (name : option string)
| on_chat_model_stream (chunk : option chunk_content)
| other_event (kind : string).

(** What the generator does: it yields [events], then ends or raises an
    [Exception], the case [except Exception] handles.  A cancelled worker
    is the third case of [stream_end] below. *)
Record event_stream := { events : list event; raised : option exn }.

Definition block_text (b : block) : string :=
  match b with
  | Dict (Some ty) text =>
      if String.eqb ty "text" then default "" text else ""
  | _ => ""
  end.

(** The text a chunk adds. *)
Definition added_text (c : chunk_content) : string :=
  match c with
  | ContentStr s => s
  | ContentList blocks => foldl (fun added b => added +:+ block_text b) "" blocks
  | ContentOther => ""
  end.

(** The local variables of the loop of [_send_message]. *)
Record loop_state := {
  full_text : string;
  tool_calls : list string;
  ai_widget : MessageWidget
}.

(** The body of the [async for]. *)
Definition on_event (s : loop_state) (ev : event) : loop_state :=
  match ev with
  | on_tool_start name =>
      let tool_name := default "tool" name in
      let tcs :=
        if bool_decide (tool_name ∈ tool_calls s) then tool_calls s
        else tool_calls s ++ [tool_name] in
      {| full_text := full_text s; tool_calls := tcs;
         ai_widget := set_content (ai_widget s) (full_text s) (Some tcs) true |}
  | on_chat_model_stream (Some chunk) =>
      let added := added_text chunk in
      if negb (String.eqb added "") then
        let text := full_text s +:+ added in
        {| full_text := text; tool_calls := tool_calls s;
           ai_widget := set_content (ai_widget s) text (Some (tool_calls s)) true |}
      else s
  | _ => s
  end.

(** The state before the first event: the placeholder shows the thinking
    hint. *)
Definition loop_start : loop_state :=
  {| full_text := ""; tool_calls := [];
     ai_widget := set_content (new_MessageWidget "assistant" "") "" None true |}.

Definition consume (evs : list event) : loop_state := foldl on_event loop_start evs.

(** The loop keeps the widget in step with its variables: the role is the
    assistant's and the tool list shown is the list of the loop. *)
Definition in_step (s : loop_state) : Prop :=
  _role (ai_widget s) = "assistant" /\ _tool_calls (ai_widget s) = tool_calls s.

(** What [_send_message] leaves behind: both widgets and [_THREAD_FILE]. *)
Record sent := {
  user_widget : MessageWidget;
  reply_widget : MessageWidget;
  thread_file : option string
}.

(** The content of the [except] branch. *)
Definition error_content (exc : exn) (format_exc : string) : string :=
  "[red]Error:[/red] " +:+ exc_str exc +:+ newline +:+ newline
  +:+ "[dim]" +:+ format_exc +:+ "[/dim]".

(** [_send_message(content)]; [format_exc] is [traceback.format_exc()]
    in the handler. *)
Definition _send_message {Client} (self : ChatApp Client) (content : string)
    (stream : event_stream) (format_exc : exn -> string) : sent :=
  let s := consume (events stream) in
  let widget :=
    match raised stream with
    | Some exc => set_content (ai_widget s) (error_content exc (format_exc exc)) None false
    | None =>
        set_content (ai_widget s)
          (if String.eqb (full_text s) "" then "(no response)" else full_text s)
          (Some (tool_calls s)) false
    end in
  {| user_widget := new_MessageWidget "user" content;
     reply_widget := widget;
     thread_file := _save_thread_id (thread_id self) |}.

(** [on_input_submitted(event)]; [value] is [event.value].  The result is
    the text left in the input box, which [event.input.clear()] empties,
    and what [_send_message] did when it was called. *)
Definition on_input_submitted {Client} (self : ChatApp Client) (value : string)
    (stream : event_stream) (format_exc : exn -> string) : string * option sent :=
  let content := strip value in
  if String.eqb content "" || negb (bool_decide (is_Some (graph self))) then (value, None)
  else ("", Some (_send_message self content stream format_exc)).

(** The text an event contributes and the tool name it announces, to
    state what the loop accumulates. *)
Definition event_text (ev : event) : string :=
  match ev with
  | on_chat_model_stream (Some chunk) => added_text chunk
  | _ => ""
  end.

Definition stream_text (evs : list event) : string :=
  foldr (fun ev rest => event_text ev +:+ rest) "" evs.

Definition started (evs : list event) : list string :=
  flat_map (fun ev =>
              match ev with
              | on_tool_start name => [default "tool" name]
              | _ => []
              end) evs.

(** The pieces of text an event delivers, read off lines 265 to 276 of
    [_send_message]: the content of a chunk when it is a [str]; for a
    list, the ["text"] entry of each dict block whose ["type"] is
    ["text"]. *)
Definition block_texts (b : block) : list string :=
  match b with
  | Dict (Some ty) (Some text) => if decide (ty = "text") then [text] else []
  | _ => []
  end.

Definition received (ev : event) : list string :=
  match ev with
  | on_chat_model_stream (Some (ContentStr s)) => [s]
  | on_chat_model_stream (Some (ContentList blocks)) => flat_map block_texts blocks
  | _ => []
  end.

Definition concat_texts (l : list string) : string :=
  foldr (fun s rest => s +:+ rest) "" l.

(** How the [try] of [_send_message] is left after the events [evs]: the
    stream ends, an [Exception] is raised, or the worker is cancelled
    ([@work(exclusive=True)] cancels the run in flight when a new one
    starts).  The [CancelledError] of a cancellation is not an
    [Exception]: neither [except] nor [else] runs, only [finally]. *)
Inductive stream_end :=
| ends
| raises (exc : exn)
| cancelled.

Definition send_message_worker {Client} (self : ChatApp Client) (content : string)
    (evs : list event) (e : stream_end) (format_exc : exn -> string) : sent :=
  match e with
  | ends => _send_message self content {| events := evs; raised := None |} format_exc
  | raises exc =>
      _send_message self content {| events := evs; raised := Some exc |} format_exc
  | cancelled =>
      {| user_widget := new_MessageWidget "user" content;
         reply_widget := ai_widget (consume evs);
         thread_file := _save_thread_id (thread_id self) |}
  end.

End Chat.

(** ** tools.py: the search tool *)

Module Tools.

Section web_search.

(** [TavilySearch(max_results=m).ainvoke({"query": q})], outside the
    repository. *)
Context {Answer : Type}.
Variable TavilySearch : pyval -> string -> result Answer.

(** [web_search(query)]; [context] is [get_runtime(Context).context]. *)
Definition web_search (context : Config.Context) (query : string) : result Answer :=
  TavilySearch (context Config.max_search_results) query.

End web_search.

End Tools.

(** ** Sample values *)

Module Sample.

Import Graph.

Definition human (text : string) : Message :=
  {| class := HumanMessage; id := None; content := text; tool_calls := [];
     tool_call_id := None |}.

Definition search_call : ToolCall :=
  {| call_name := "web_search"; call_args := "{}"; call_id := Some "call_1" |}.

(** A reply that requests one tool call. *)
Definition tool_reply : Message :=
  {| class := AIMessage; id := Some "run-1"; content := "";
     tool_calls := [search_call]; tool_call_id := None |}.

(** A reply that answers. *)
Definition answer : Message := new_AIMessage (Some "run-2") "PONG".

(** A model that requests the same tool call at every invocation. *)
Definition load_chat_model (name : pyval) (tools : list Tool) : result unit := Ok ().
Definition ainvoke (model : unit) (input : list Message) : result Message := Ok tool_reply.
Definition format (template : pyval) (system_time : string) : result string :=
  Ok ("System time: " +:+ system_time).

(** The same request in a reply that has no id yet. *)
Definition unnamed_reply : Message :=
  {| class := AIMessage; id := None; content := "";
     tool_calls := [search_call]; tool_call_id := None |}.

Definition ainvoke_unnamed (model : unit) (input : list Message) : result Message :=
  Ok unnamed_reply.

(** A tool node that answers every pending call. *)
Definition tool_result (c : ToolCall) : Message :=
  {| class := ToolMessage; id := None; content := "no results"; tool_calls := [];
     tool_call_id := call_id c |}.

Definition ToolNode (tools : list Tool) (state : State) : result (list Message) :=
  Ok (match last (messages state) with
      | Some m => map tool_result (tool_calls m)
      | None => []
      end).

(** A model that requests the search once and answers when the tool
    result is the last message. *)
Definition ainvoke_once (model : unit) (input : list Message) : result Message :=
  match last input with
  | Some m => if bool_decide (class m = ToolMessage) then Ok answer else Ok tool_reply
  | None => Ok tool_reply
  end.

(** A model whose provider is down. *)
Definition ainvoke_down (model : unit) (input : list Message) : result Message :=
  Raise (Exn "APIConnectionError" "Connection error.").

Definition last_step_state : State :=
  {| messages := [human "What is new?"]; is_last_step := true |}.

Definition context : Config.Context := Config.new_Context ∅ Config.no_kwargs.

(** A provider with two tools, one of them named like the static tool. *)
Definition brain_tools : list Tool :=
  [ {| tool_name := "todo_list"; tool_description := "List the open todos." |};
    {| tool_name := "web_search"; tool_description := "Search the notes." |} ].

Definition fresh_app : Chat.ChatApp unit :=
  {| Chat._mcp_client := None; Chat.graph := None;
     Chat.thread_id := "chat-2026-11-03"; Chat.sub_title := "";
     Chat.notifications := [] |}.

Definition which_found (cmd : string) : option string :=
  if String.eqb cmd "brain-mcp" then Some "/usr/local/bin/brain-mcp" else None.

Definition which_missing (cmd : string) : option string := None.

(** The application once [_initialize] has built the graph. *)
Definition ready_app : Chat.ChatApp unit := Chat.set_graph fresh_app BASE_TOOLS.

(** A discovery that reaches the provider, and one whose connection is
    refused. *)
Definition import_ok : result unit := Ok ().
Definition new_client (c : Chat.Connection) : result unit := Ok ().
Definition get_brain_tools (client : unit) : result (list Tool) := Ok brain_tools.
Definition get_tools_refused (client : unit) : result (list Tool) :=
  Raise (Exn "ConnectionError" "connection refused").

(** A clock: 3 November 2026, 14:22:33 and 18:00:00 UTC. *)
Definition afternoon : Chat.datetime :=
  {| Chat.year := 2026; Chat.month := 11; Chat.day := 3;
     Chat.hour := 14; Chat.minute := 22; Chat.second := 33 |}.

Definition evening : Chat.datetime :=
  {| Chat.year := 2026; Chat.month := 11; Chat.day := 3;
     Chat.hour := 18; Chat.minute := 0; Chat.second := 0 |}.

Definition uuid_hex : string := "a1b2c3d4e5f647a8b9c0d1e2f3a4b5c6".

(** A stream that delivers one piece of text and then fails. *)
Definition broken_stream : Chat.event_stream :=
  {| Chat.events := [Chat.on_chat_model_stream (Some (Chat.ContentStr "Hello"))];
     Chat.raised := Some (Exn "RuntimeError" "boom") |}.

(** A stream that delivers an answer and ends. *)
Definition answered_stream : Chat.event_stream :=
  {| Chat.events := [Chat.on_chat_model_stream (Some (Chat.ContentStr "PONG"))];
     Chat.raised := None |}.

Definition format_exc (exc : exn) : string :=
  "Traceback (most recent call last): " +:+ exc_type exc.

End Sample.

(** * Properties *)

(** ** Truth values *)

Lemma truthy_false {A} (l : list A) : Graph.truthy l = false <-> l = [].
Proof. destruct l; simpl; split; congruence. Qed.

Lemma truthy_true {A} (l : list A) : Graph.truthy l = true <-> l <> [].
Proof. destruct l; simpl; split; congruence. Qed.

(** ** The reducer *)

Section reducer.
Import Graph.

Lemma replace_last_fresh m l : fresh_for m l -> replace_last m l = None.
Proof.
  induction 1 as [|x l Hx _ IH]; simpl; [done|].
  by rewrite IH, Hx.
Qed.

Lemma fresh_for_no_id m l : id m = None -> fresh_for m l.
Proof.
  intros Hm. apply Forall_forall. intros x _.
  unfold same_id. rewrite Hm. by destruct (id x).
Qed.

Lemma replace_last_Some m l l' :
  replace_last m l = Some l' ->
  m ∈ l' /\ length l' = length l /\ forall x, x ∈ l' -> x ∈ l \/ x = m.
Proof.
  revert l'. induction l as [|y l IH]; intros l'; simpl; [done|].
  destruct (replace_last m l) as [r|] eqn:E.
  - intros [= <-]. destruct (IH r eq_refl) as (Hin & Hlen & Hsub).
    split; [by apply list_elem_of_further|]. split; [simpl; lia|].
    intros x [->|Hx]%elem_of_cons; [left; apply list_elem_of_here|].
    destruct (Hsub x Hx); [left; by apply list_elem_of_further|by right].
  - destruct (same_id y m); [|done].
    intros [= <-]. split; [apply list_elem_of_here|]. split; [done|].
    intros x [->|Hx]%elem_of_cons; [by right|left; by apply list_elem_of_further].
Qed.

Lemma add_message_elem l m :
  m ∈ add_message l m /\ forall x, x ∈ add_message l m -> x ∈ l \/ x = m.
Proof.
  unfold add_message. destruct (replace_last m l) as [l'|] eqn:E.
  - destruct (replace_last_Some _ _ _ E) as (? & _ & ?). done.
  - split.
    + apply elem_of_app. right. apply list_elem_of_here.
    + intros x [Hx|Hx]%elem_of_app; [by left|].
      apply list_elem_of_singleton in Hx. by right.
Qed.

Lemma add_messages_fresh l m : fresh_for m l -> add_messages l [m] = l ++ [m].
Proof.
  intros H. unfold add_messages, add_message. simpl.
  by rewrite (replace_last_fresh _ _ H).
Qed.

End reducer.

(** ** The graph *)

Section graph_facts.
Import Graph.

Context {ChatModel : Type}.
Variable load_chat_model : pyval -> list Tool -> result ChatModel.
Variable ainvoke : ChatModel -> list Message -> result Message.
Variable format : pyval -> string -> result string.
Variable ToolNode : list Tool -> State -> result (list Message).
Variable tools_arg : option (list Tool).

Local Abbreviation call_model := (call_model load_chat_model ainvoke format tools_arg).
Local Abbreviation run := (run load_chat_model ainvoke format ToolNode tools_arg).
Local Abbreviation replies := (replies load_chat_model ainvoke format tools_arg).

Lemma call_model_replies state context t response :
  replies (messages state) context t response ->
  call_model state context t =
    if is_last_step state && truthy (tool_calls response)
    then Ok [new_AIMessage (id response) budget_exhausted]
    else Ok [response].
Proof.
  intros (model & sys & Hl & Hf & Ha). unfold Graph.call_model.
  rewrite Hl. simpl. rewrite Hf. simpl. rewrite Ha. done.
Qed.

Lemma route_last msgs b m :
  last msgs = Some m ->
  route_model_output {| messages := msgs; is_last_step := b |} =
    if negb (is_AIMessage m) then
      Raise (Exn "ValueError"
               ("Expected AIMessage in output edges, but got " +:+ class_name (class m)))
    else if negb (truthy (tool_calls m)) then Ok END else Ok TOOLS.
Proof. intros H. unfold route_model_output. simpl. by rewrite H. Qed.

(** C2: for a state whose last message is an assistant message,
    [route_model_output] returns ["__end__"] exactly when that message
    has no tool-call request, and ["tools"] otherwise. *)
Theorem route_model_output_edge (state : State) (m : Message) :
  last (messages state) = Some m ->
  class m = AIMessage ->
  (route_model_output state = Ok "__end__" <-> length (tool_calls m) = 0) /\
  (length (tool_calls m) <> 0 -> route_model_output state = Ok "tools").
Proof.
  intros Hlast Hcls. destruct state as [msgs b]. simpl in Hlast.
  rewrite (route_last _ _ _ Hlast). unfold is_AIMessage.
  rewrite bool_decide_eq_true_2 by done. simpl.
  destruct (tool_calls m) as [|c cs]; simpl; split; done.
Qed.

(** C7: on a non-empty message list, [route_model_output] raises
    ([ValueError]) when the last message is not an assistant message,
    and raises nothing when it is one. *)
Theorem route_model_output_fails_fast (state : State) (m : Message) :
  last (messages state) = Some m ->
  (class m <> AIMessage ->
     exists text, route_model_output state = Raise (Exn "ValueError" text)) /\
  (class m = AIMessage -> exists edge, route_model_output state = Ok edge).
Proof.
  intros Hlast. destruct state as [msgs b]. simpl in Hlast.
  rewrite (route_last _ _ _ Hlast). unfold is_AIMessage. split; intros Hcls.
  - rewrite bool_decide_eq_false_2 by done. simpl. eauto.
  - rewrite bool_decide_eq_true_2 by done. simpl.
    destruct (truthy (tool_calls m)); simpl; eauto.
Qed.

(** C9: when [call_model] substitutes the reply (last step, reply with
    tool calls), the message it returns carries the id of the discarded
    reply and the fixed apology as content. *)
Theorem call_model_substitute_id_content
    (state : State) (context : Config.Context) (t : string) (response : Message) :
  replies (messages state) context t response ->
  is_last_step state = true ->
  tool_calls response <> [] ->
  exists m,
    call_model state context t = Ok [m] /\
    id m = id response /\
    content m =
      "Sorry, I could not find an answer to your question in the specified number of steps.".
Proof.
  intros Hr Hlast Htc. rewrite (call_model_replies _ _ _ _ Hr), Hlast.
  apply truthy_true in Htc. rewrite Htc. simpl.
  eexists. split; [reflexivity|]. done.
Qed.

Lemma fresh_for_same_id m m' l : id m = id m' -> fresh_for m l -> fresh_for m' l.
Proof.
  intros Hid H. eapply Forall_impl; [exact H|].
  intros x. unfold same_id. by rewrite Hid.
Qed.

(** The update of the last step, and where the reducer puts it. *)
Lemma call_model_last_step state context t response :
  replies (messages state) context t response ->
  is_last_step state = true ->
  tool_calls response <> [] ->
  call_model state context t = Ok [new_AIMessage (id response) budget_exhausted].
Proof.
  intros Hr Hlast Htc. rewrite (call_model_replies _ _ _ _ Hr), Hlast.
  apply truthy_true in Htc. by rewrite Htc.
Qed.

Lemma add_messages_synthetic msgs response :
  fresh_for response msgs ->
  add_messages msgs [new_AIMessage (id response) budget_exhausted]
  = msgs ++ [new_AIMessage (id response) budget_exhausted].
Proof.
  intros Hfresh. apply add_messages_fresh. by apply (fresh_for_same_id response).
Qed.

Lemma route_after_synthetic msgs i b :
  route_model_output
    {| messages := msgs ++ [new_AIMessage i budget_exhausted]; is_last_step := b |}
  = Ok END.
Proof. rewrite (route_last _ _ (new_AIMessage i budget_exhausted)); [done|apply last_snoc]. Qed.

(** One step of the run on the last step. *)
Lemma run_last_step context is_last_step_at system_time_at fuel step msgs visited response :
  replies msgs context (system_time_at step) response ->
  is_last_step_at step = true ->
  tool_calls response <> [] ->
  fresh_for response msgs ->
  run context is_last_step_at system_time_at (S fuel) step msgs visited
  = Finished (msgs ++ [new_AIMessage (id response) budget_exhausted])
      (visited ++ [n_call_model]).
Proof.
  intros Hr Hstep Htc Hfresh. simpl.
  rewrite (call_model_last_step {| messages := msgs; is_last_step := is_last_step_at step |}
             _ _ response Hr Hstep Htc).
  rewrite (add_messages_synthetic _ _ Hfresh).
  by rewrite route_after_synthetic.
Qed.

(** C1: on the last step, a reply that requests tool calls is dropped:
    [call_model] returns one assistant message, under the id of the reply
    and without tool calls, whose content says that no answer was found
    in the specified number of steps; that message, not the reply, is
    what the reducer merges into [messages].  The route after it is
    ["__end__"], so the run finishes at this step and the tool node is
    not visited for the pending calls. *)
Theorem call_model_forced_stop
    (state : State) (context : Config.Context) (t : string) (response : Message) :
  replies (messages state) context t response ->
  is_last_step state = true ->
  tool_calls response <> [] ->
  let synthetic :=
    {| class := AIMessage;
       id := id response;
       content :=
         "Sorry, I could not find an answer to your question in the specified number of steps.";
       tool_calls := [];
       tool_call_id := None |} in
  let merged := add_messages (messages state) [synthetic] in
  call_model state context t = Ok [synthetic] /\
  class synthetic = AIMessage /\
  content synthetic =
    "Sorry, I could not find an answer to your question in the specified number of steps." /\
  tool_calls synthetic = [] /\
  synthetic <> response /\
  synthetic ∈ merged /\
  (forall m, m ∈ merged -> m ∈ messages state \/ m = synthetic) /\
  (fresh_for response (messages state) ->
     merged = messages state ++ [synthetic] /\
     (forall b, route_model_output {| messages := merged; is_last_step := b |}
                = Ok "__end__") /\
     forall is_last_step_at system_time_at fuel step visited,
       is_last_step_at step = true ->
       system_time_at step = t ->
       run context is_last_step_at system_time_at (S fuel) step (messages state) visited
       = Finished merged (visited ++ [n_call_model])).
Proof.
  intros Hr Hlast Htc synthetic merged.
  split; [by apply call_model_last_step|]. split; [done|]. split; [done|]. split; [done|].
  split. { intros E. apply Htc. by rewrite <- E. }
  destruct (add_message_elem (messages state) synthetic) as [Hin Hsub].
  split; [exact Hin|]. split; [exact Hsub|].
  intros Hfresh.
  assert (Hm : merged = messages state ++ [synthetic])
    by by apply add_messages_synthetic.
  split; [exact Hm|]. split.
  - intros b. rewrite Hm. apply route_after_synthetic.
  - intros is_last_step_at system_time_at fuel step visited Hstep Ht.
    rewrite Hm. apply run_last_step; [by rewrite Ht|done..].
Qed.

(** X6: the whole run of a conversation whose model requests tool calls
    at every call: when the managed value is first set at the model call
    number [n + 1], the run makes [n + 1] model calls and [n] visits of
    the tool node, and finishes with the apology as last message. *)
Lemma run_stops_at_budget context is_last_step_at system_time_at :
  keeps_requesting_tools load_chat_model ainvoke format tools_arg context system_time_at ->
  (forall st, exists update, ToolNode (tools tools_arg) st = Ok update) ->
  forall n step msgs visited,
    is_last_step_at (step + 2 * n) = true ->
    (forall j, j < n -> is_last_step_at (step + 2 * j) = false) ->
    exists final m,
      run context is_last_step_at system_time_at (S n) step msgs visited
      = Finished final (visited ++ rounds n ++ [n_call_model]) /\
      last final = Some m /\
      content m = budget_exhausted /\
      tool_calls m = [].
Proof.
  intros Hmodel Htools. induction n as [|n IH]; intros step msgs visited Hlast Hbefore.
  - replace (step + 2 * 0) with step in Hlast by lia.
    destruct (Hmodel step msgs) as (response & Hr & _ & Htc & Hfresh).
    eexists _, _. split; [by apply (run_last_step _ _ _ _ _ _ _ response)|].
    by rewrite last_snoc.
  - destruct (Hmodel step msgs) as (response & Hr & Hcls & Htc & Hfresh).
    pose proof (Hbefore 0 ltac:(lia)) as H0.
    replace (step + 2 * 0) with step in H0 by lia.
    destruct (Htools {| messages := msgs ++ [response];
                        is_last_step := is_last_step_at (S step) |})
      as [update Hupdate].
    destruct (IH (S (S step)) (add_messages (msgs ++ [response]) update)
                ((visited ++ [n_call_model]) ++ [n_tools])) as (final & m & Hrun & Hfinal).
    { by replace (S (S step) + 2 * n) with (step + 2 * S n) by lia. }
    { intros j Hj. replace (S (S step) + 2 * j) with (step + 2 * S j) by lia.
      apply Hbefore. lia. }
    exists final, m. split; [|exact Hfinal].
    change (run context is_last_step_at system_time_at (S (S n)) step msgs visited)
      with
      (let state := {| messages := msgs; is_last_step := is_last_step_at step |} in
       let visited := visited ++ [n_call_model] in
       match call_model state context (system_time_at step) with
       | Raise e => Failed e visited
       | Ok update =>
           let msgs := add_messages msgs update in
           let state := {| messages := msgs; is_last_step := is_last_step_at (S step) |} in
           match route_model_output state with
           | Raise e => Failed e visited
           | Ok edge =>
               if String.eqb edge END then Finished msgs visited
               else
                 let visited := visited ++ [n_tools] in
                 match ToolNode (tools tools_arg) state with
                 | Raise e => Failed e visited
                 | Ok update =>
                     run context is_last_step_at system_time_at (S n) (S (S step))
                       (add_messages msgs update) visited
                 end
           end
       end).
    cbv zeta.
    rewrite (call_model_replies {| messages := msgs; is_last_step := is_last_step_at step |}
               _ _ _ Hr).
    cbn [is_last_step]. rewrite H0.
    cbn [andb]. rewrite (add_messages_fresh _ _ Hfresh).
    rewrite (route_last _ _ response) by apply last_snoc.
    unfold is_AIMessage. rewrite bool_decide_eq_true_2 by done.
    apply truthy_true in Htc. rewrite Htc. cbn [negb].
    change (String.eqb TOOLS END) with false. cbv iota.
    rewrite Hupdate, Hrun. f_equal.
    unfold rounds. simpl. by rewrite <- !app_assoc.
Qed.

End graph_facts.

(** With the managed value set at the fifth step, the sample conversation
    makes three model calls and runs the tools twice. *)
Example run_stops_at_budget_sample :
  exists final m,
    Graph.run Sample.load_chat_model Sample.ainvoke_unnamed Sample.format Sample.ToolNode
      None Sample.context (fun step => Nat.eqb step 4) (fun _ => "2026-01-01T00:00:00+00:00")
      3 0 [Sample.human "What is new?"] []
    = Graph.Finished final
        [Graph.n_call_model; Graph.n_tools; Graph.n_call_model; Graph.n_tools;
         Graph.n_call_model] /\
    last final = Some m /\
    Graph.content m = Graph.budget_exhausted /\
    Graph.tool_calls m = [].
Proof.
  apply (run_stops_at_budget Sample.load_chat_model Sample.ainvoke_unnamed Sample.format
           Sample.ToolNode None Sample.context (fun step => Nat.eqb step 4)
           (fun _ => "2026-01-01T00:00:00+00:00")).
  - intros step msgs. exists Sample.unnamed_reply. split.
    + exists (), "System time: 2026-01-01T00:00:00+00:00". done.
    + split; [done|]. split; [done|]. by apply fresh_for_no_id.
  - intros st. eexists. reflexivity.
  - reflexivity.
  - intros [|[|j]] Hj; [reflexivity|reflexivity|lia].
Defined.

Lemma sample_replies :
  Graph.replies Sample.load_chat_model Sample.ainvoke Sample.format None
    (Graph.messages Sample.last_step_state) Sample.context "2026-01-01T00:00:00+00:00"
    Sample.tool_reply.
Proof. exists (), "System time: 2026-01-01T00:00:00+00:00". done. Defined.

Lemma call_model_forced_stop_witness :
  Graph.call_model Sample.load_chat_model Sample.ainvoke Sample.format None
    Sample.last_step_state Sample.context "2026-01-01T00:00:00+00:00"
  = Ok [{| Graph.class := Graph.AIMessage;
           Graph.id := Some "run-1";
           Graph.content :=
             "Sorry, I could not find an answer to your question in the specified number of steps.";
           Graph.tool_calls := [];
           Graph.tool_call_id := None |}].
Proof.
  apply (call_model_forced_stop Sample.load_chat_model Sample.ainvoke Sample.format
           (fun _ _ => Ok []) None
           Sample.last_step_state Sample.context "2026-01-01T00:00:00+00:00"
           Sample.tool_reply sample_replies eq_refl).
  discriminate.
Defined.

Lemma route_model_output_edge_witness :
  Graph.route_model_output {| Graph.messages := [Sample.human "hi"; Sample.tool_reply];
                              Graph.is_last_step := false |} = Ok "tools".
Proof.
  apply (route_model_output_edge
           {| Graph.messages := [Sample.human "hi"; Sample.tool_reply];
              Graph.is_last_step := false |} Sample.tool_reply eq_refl eq_refl).
  simpl. lia.
Defined.

Lemma route_model_output_fails_fast_witness :
  exists text,
    Graph.route_model_output {| Graph.messages := [Sample.human "hi"];
                                Graph.is_last_step := false |}
    = Raise (Exn "ValueError" text).
Proof.
  apply (route_model_output_fails_fast
           {| Graph.messages := [Sample.human "hi"]; Graph.is_last_step := false |}
           (Sample.human "hi") eq_refl).
  discriminate.
Defined.

Lemma call_model_substitute_id_content_witness :
  exists m,
    Graph.call_model Sample.load_chat_model Sample.ainvoke Sample.format None
      Sample.last_step_state Sample.context "2026-01-01T00:00:00+00:00" = Ok [m] /\
    Graph.id m = Some "run-1" /\
    Graph.content m =
      "Sorry, I could not find an answer to your question in the specified number of steps.".
Proof.
  apply (call_model_substitute_id_content Sample.load_chat_model Sample.ainvoke
           Sample.format None Sample.last_step_state Sample.context _
           Sample.tool_reply sample_replies eq_refl).
  discriminate.
Defined.

(** ** The configuration object *)

Section context_facts.
Import Config.

Lemma py_eq_eq (a b : pyval) : py_eq a b = true <-> a = b.
Proof.
  destruct a, b; simpl; try (split; congruence).
  - rewrite String.eqb_eq. split; congruence.
  - rewrite Z.eqb_eq. split; congruence.
Qed.

(** What one pass of the loop leaves in the field it visits, and that it
    leaves the other fields alone. *)
Lemma post_init_field_same env self f :
  post_init_field env self f f =
    if py_eq (self f) (default f)
    then environ_get env (upper (name f)) (default f)
    else self f.
Proof.
  unfold post_init_field, getattr, setattr. simpl.
  destruct (py_eq (self f) (default f)); [|done].
  by rewrite decide_True.
Qed.

Lemma post_init_field_other env self f g :
  g <> f -> post_init_field env self f g = self g.
Proof.
  intros Hne. unfold post_init_field, getattr, setattr. simpl.
  destruct (py_eq (self f) (default f)); [|done].
  by rewrite decide_False.
Qed.

Lemma post_init_at env self f :
  __post_init__ env self f =
    if py_eq (self f) (default f)
    then environ_get env (upper (name f)) (default f)
    else self f.
Proof.
  unfold __post_init__, fields. cbn [foldl].
  destruct f.
  - rewrite !post_init_field_other by done. apply post_init_field_same.
  - rewrite post_init_field_other by done.
    rewrite post_init_field_same, post_init_field_other by done. done.
  - rewrite post_init_field_same, !post_init_field_other by done. done.
Qed.

(** C5, as the code has it: a constructor value different from the
    declared default is kept; a value equal to the default, passed or
    not, gives way to the environment variable when it is set, and stays
    the default otherwise. *)
Theorem new_Context_override_order (env : environ)
    (kwargs : field -> option pyval) (f : field) :
  new_Context env kwargs f =
    match kwargs f with
    | Some v =>
        if py_eq v (default f) then
          match env !! upper (name f) with
          | Some s => PStr s
          | None => default f
          end
        else v
    | None =>
        match env !! upper (name f) with
        | Some s => PStr s
        | None => default f
        end
    end.
Proof.
  unfold new_Context. rewrite post_init_at. unfold dataclass_init, environ_get.
  destruct (kwargs f) as [v|]; [done|].
  by rewrite (proj2 (py_eq_eq _ _) eq_refl).
Qed.

(** C10: a field whose constructor value equals its default receives the
    environment string as it is; for [max_search_results], declared [int]
    with default 10, the attribute is then a [str]. *)
Theorem post_init_assigns_raw_string (env : environ)
    (kwargs : field -> option pyval) (f : field) (s : string) :
  py_eq (dataclass_init kwargs f) (default f) = true ->
  env !! upper (name f) = Some s ->
  new_Context env kwargs f = PStr s /\
  (f = max_search_results ->
     default f = PInt 10 /\
     upper (name f) = "MAX_SEARCH_RESULTS" /\
     is_str (new_Context env kwargs f) = true).
Proof.
  intros Hdef Henv.
  assert (H : new_Context env kwargs f = PStr s).
  { unfold new_Context. rewrite post_init_at, Hdef. unfold environ_get. by rewrite Henv. }
  split; [exact H|]. intros ->. rewrite H. done.
Qed.

End context_facts.

(** C5 as stated fails: the default model passed explicitly is replaced by
    the value of [MODEL]. *)
Lemma explicit_argument_not_always_kept :
  ~ (forall (env : gmap string string) kwargs f v,
       kwargs f = Some v -> Config.new_Context env kwargs f = v).
Proof.
  intros H.
  specialize (H {[ "MODEL" := "anthropic/claude-sonnet-4-5" ]}
                (Config.kwarg Config.model (PStr "anthropic/claude-haiku-4-5-20251001"))
                Config.model _ eq_refl).
  vm_compute in H. discriminate H.
Qed.

Lemma post_init_assigns_raw_string_witness :
  Config.new_Context {[ "MAX_SEARCH_RESULTS" := "5" ]} Config.no_kwargs
    Config.max_search_results = PStr "5".
Proof.
  apply (post_init_assigns_raw_string {[ "MAX_SEARCH_RESULTS" := "5" ]}
           Config.no_kwargs Config.max_search_results "5").
  - reflexivity.
  - vm_compute. reflexivity.
Defined.

(** ** The tool registry *)

Section registry_facts.
Import Graph Chat.

Context {Client : Type}.
Variable which : string -> option string.
Variable import_client : result unit.
Variable MultiServerMCPClient : Connection -> result Client.
Variable get_tools : Client -> result (list Tool).
Variable open_checkpointer : result unit.

Local Abbreviation connect_mcp := (connect_mcp import_client MultiServerMCPClient get_tools).
Local Abbreviation resolve_tools :=
  (resolve_tools which import_client MultiServerMCPClient get_tools).
Local Abbreviation _initialize :=
  (_initialize which import_client MultiServerMCPClient get_tools open_checkpointer).
Local Abbreviation discovery_fails :=
  (discovery_fails import_client MultiServerMCPClient get_tools).

Lemma connect_mcp_raises (self : ChatApp Client) tools exc :
  discovery_fails exc -> connect_mcp self tools = Raise exc.
Proof.
  unfold Chat.connect_mcp.
  intros [H|[[H1 H2]|(client & H1 & H2 & H3)]].
  - by rewrite H.
  - rewrite H1. simpl. by rewrite H2.
  - rewrite H1. simpl. rewrite H2. simpl. by rewrite H3.
Qed.

Lemma notifications_client_after_failure (self : ChatApp Client) :
  notifications (client_after_failure import_client MultiServerMCPClient self)
  = notifications self.
Proof.
  unfold client_after_failure.
  destruct import_client; [|done].
  by destruct (MultiServerMCPClient local_brain).
Qed.

Lemma initialize_after_resolve (self : ChatApp Client) u :
  open_checkpointer = Ok u ->
  _initialize self = Ok (set_graph (resolve_tools self).1 (resolve_tools self).2).
Proof.
  intros H. unfold Chat._initialize.
  destruct (Chat.resolve_tools _ _ _ _ self) as [app tools]. by rewrite H.
Qed.

(** C3: without [brain-mcp] on the path, or when a step of the discovery
    raises, the tool list is [BASE_TOOLS], one warning that carries the
    reason is notified, and no exception leaves the step: the graph is
    then created with [BASE_TOOLS] once the checkpointer is open. *)
Theorem resolve_tools_falls_back (self : ChatApp Client) :
  (which "brain-mcp" = None \/ exists exc, discovery_fails exc) ->
  exists reason,
    (resolve_tools self).2 = BASE_TOOLS /\
    notifications (resolve_tools self).1
      = notifications self ++ [Build_Notification reason warning 6] /\
    (which "brain-mcp" = None ->
       reason = "brain-mcp not found in PATH — running without brain tools") /\
    (forall path exc, which "brain-mcp" = Some path -> discovery_fails exc ->
       reason = "brain-mcp failed to connect: " +:+ exc_str exc) /\
    (forall u, open_checkpointer = Ok u ->
       exists app, _initialize self = Ok app /\ graph app = Some BASE_TOOLS).
Proof.
  intros Hfail.
  assert (Hres : exists reason,
    resolve_tools self
      = (notify (match which "brain-mcp" with
                 | Some _ => client_after_failure import_client MultiServerMCPClient self
                 | None => self
                 end) reason warning 6, BASE_TOOLS) /\
    (which "brain-mcp" = None ->
       reason = "brain-mcp not found in PATH — running without brain tools") /\
    (forall path exc, which "brain-mcp" = Some path -> discovery_fails exc ->
       reason = "brain-mcp failed to connect: " +:+ exc_str exc)).
  { unfold Chat.resolve_tools.
    destruct (which "brain-mcp") as [path|] eqn:Hw.
    - destruct Hfail as [|[exc Hexc]]; [done|].
      rewrite (connect_mcp_raises _ _ _ Hexc).
      eexists. split; [reflexivity|]. split; [done|].
      intros _ exc' _ Hexc'.
      pose proof (connect_mcp_raises self BASE_TOOLS _ Hexc) as E1.
      pose proof (connect_mcp_raises self BASE_TOOLS _ Hexc') as E2.
      rewrite E1 in E2. by injection E2 as ->.
    - eexists. split; [reflexivity|]. split; [done|]. intros; discriminate. }
  destruct Hres as (reason & Heq & Hnone & Hexc).
  exists reason. rewrite Heq. simpl.
  split; [done|]. split.
  { destruct (which "brain-mcp"); [|done].
    by rewrite notifications_client_after_failure. }
  split; [exact Hnone|]. split; [exact Hexc|].
  intros u Hu. eexists. split.
  - rewrite (initialize_after_resolve _ _ Hu), Heq. reflexivity.
  - done.
Qed.

Lemma tools_by_name_snoc (l : list Tool) (t : Tool) :
  tools_by_name (l ++ [t]) = <[tool_name t := t]> (tools_by_name l).
Proof. unfold tools_by_name. by rewrite foldl_app. Qed.

Lemma tools_by_name_app (l1 l2 : list Tool) (name : string) :
  tools_by_name (l1 ++ l2) !! name =
    match tools_by_name l2 !! name with
    | Some t => Some t
    | None => tools_by_name l1 !! name
    end.
Proof.
  induction l2 as [|t l2 IH] using rev_ind.
  - by rewrite app_nil_r.
  - rewrite app_assoc, !tools_by_name_snoc.
    destruct (decide (tool_name t = name)) as [->|Hne].
    + by rewrite !lookup_insert_eq.
    + rewrite !lookup_insert_ne by done. exact IH.
Qed.

(** C8, as the code has it: when the discovery returns [mcp_tools], the
    tool list is [mcp_tools] followed by [BASE_TOOLS], both in their
    order, and an information notification carries the number of remote
    tools.  The remote tools come first in the list, but that does not
    make a remote tool the one matched on a name collision: in the table
    by name built from the list the static tool of that name is the one
    kept, and a remote tool is found only under a name no static tool
    has. *)
Theorem resolve_tools_prepends (self : ChatApp Client)
    (path : string) (client : Client) (mcp_tools : list Tool) :
  which "brain-mcp" = Some path ->
  import_client = Ok () ->
  MultiServerMCPClient local_brain = Ok client ->
  get_tools client = Ok mcp_tools ->
  (resolve_tools self).2 = mcp_tools ++ BASE_TOOLS /\
  notifications (resolve_tools self).1
    = notifications self ++
      [Build_Notification
         ("brain-mcp connected (" +:+ pretty (length mcp_tools) +:+ " tools)")
         information 3] /\
  (forall i t, mcp_tools !! i = Some t -> (resolve_tools self).2 !! i = Some t) /\
  (forall j t, BASE_TOOLS !! j = Some t ->
     (resolve_tools self).2 !! (length mcp_tools + j) = Some t) /\
  (forall name,
     tools_by_name (resolve_tools self).2 !! name =
       match tools_by_name BASE_TOOLS !! name with
       | Some static => Some static
       | None => tools_by_name mcp_tools !! name
       end).
Proof.
  intros Hw Hi Hc Hg.
  assert (Heq : resolve_tools self
    = (notify (set_mcp_client self client)
         ("brain-mcp connected (" +:+ pretty (length mcp_tools) +:+ " tools)")
         information 3,
       mcp_tools ++ BASE_TOOLS)).
  { unfold Chat.resolve_tools, Chat.connect_mcp.
    rewrite Hw, Hi. simpl. rewrite Hc. simpl. by rewrite Hg. }
  rewrite Heq. simpl. split; [done|]. split; [done|]. split; [|split].
  - intros i t Ht. by apply lookup_app_l_Some.
  - intros j t Ht. by rewrite lookup_app_r, Nat.add_comm, Nat.add_sub by lia.
  - intros name. apply tools_by_name_app.
Qed.

End registry_facts.

Lemma resolve_tools_falls_back_witness :
  (Chat.resolve_tools Sample.which_found Sample.import_ok Sample.new_client
     Sample.get_tools_refused Sample.fresh_app).2 = Graph.BASE_TOOLS.
Proof.
  destruct (resolve_tools_falls_back Sample.which_found Sample.import_ok
              Sample.new_client Sample.get_tools_refused (Ok ()) Sample.fresh_app)
    as (reason & Htools & _).
  - right. exists (Exn "ConnectionError" "connection refused").
    right. right. exists (). done.
  - exact Htools.
Defined.

Lemma resolve_tools_prepends_witness :
  (Chat.resolve_tools Sample.which_found Sample.import_ok Sample.new_client
     Sample.get_brain_tools Sample.fresh_app).2
  = Sample.brain_tools ++ Graph.BASE_TOOLS.
Proof.
  apply (resolve_tools_prepends Sample.which_found Sample.import_ok Sample.new_client
           Sample.get_brain_tools Sample.fresh_app "/usr/local/bin/brain-mcp" ()
           Sample.brain_tools eq_refl eq_refl eq_refl eq_refl).
Defined.

(** C8 as stated fails: the provider offers a tool named [web_search];
    it comes first in the resolved list, yet the tool found under that
    name is the static one, which is none of the remote tools. *)
Lemma remote_tool_not_matched_first :
  ~ (forall (mcp_tools : list Graph.Tool) (name : string) (remote : Graph.Tool),
       remote ∈ mcp_tools ->
       Graph.tool_name remote = name ->
       exists found,
         found ∈ mcp_tools /\
         Graph.tools_by_name
           (Chat.resolve_tools Sample.which_found Sample.import_ok Sample.new_client
              (fun _ => Ok mcp_tools) Sample.fresh_app).2 !! name = Some found).
Proof.
  intros H.
  destruct (H Sample.brain_tools "web_search"
              {| Graph.tool_name := "web_search";
                 Graph.tool_description := "Search the notes." |})
    as (found & Hin & Hfound).
  - apply list_elem_of_further, list_elem_of_here.
  - reflexivity.
  - vm_compute in Hfound. injection Hfound as <-.
    apply elem_of_cons in Hin as [Hin|Hin]; [discriminate Hin|].
    apply elem_of_cons in Hin as [Hin|Hin]; [discriminate Hin|].
    by apply elem_of_nil in Hin.
Qed.

(** ** Thread identifiers *)

Section thread_facts.
Import Chat.

(** A saved identifier that starts with today's daily identifier is the
    one returned. *)
Lemma daily_thread_id_resumes now text :
  startswith (strip text) ("chat-" +:+ strftime_Y_m_d now) = true ->
  _daily_thread_id now (Some text) = strip text.
Proof. intros H. unfold _daily_thread_id. by rewrite H. Qed.

Lemma daily_thread_id_fresh now :
  _daily_thread_id now None = "chat-" +:+ strftime_Y_m_d now.
Proof. reflexivity. Qed.

(** C4 at the identifier of [action_new_thread]: the application is
    started on 3 November 2026, a new thread is opened at 14:22:33 and a
    message is sent in it, which saves the identifier.  The identifier
    holds that day's date, yet the application started again the same
    evening resolves the daily identifier and not the saved one. *)
Theorem daily_thread_id_drops_new_thread :
  let app : ChatApp unit := new_ChatApp Sample.afternoon None in
  let app := action_new_thread app Sample.afternoon Sample.uuid_hex in
  let file := thread_file (_send_message app "hi" Sample.answered_stream Sample.format_exc) in
  thread_id app = "chat-20261103-142233-a1b2c3" /\
  file = Some "chat-20261103-142233-a1b2c3" /\
  strftime_Y_m_d Sample.afternoon = strftime_Y_m_d Sample.evening /\
  _daily_thread_id Sample.evening file = "chat-2026-11-03" /\
  thread_id (new_ChatApp (Client := unit) Sample.evening file) <> thread_id app.
Proof. vm_compute. repeat split; discriminate. Qed.

End thread_facts.

(** ** The reply widget *)

Section stream_facts.
Import Chat.

Lemma in_step_start : in_step loop_start.
Proof. done. Qed.

Lemma in_step_on_event s ev : in_step s -> in_step (on_event s ev).
Proof.
  intros [Hrole Htcs]. destruct ev as [name|[chunk|]|kind]; simpl; try done.
  destruct (negb (String.eqb (added_text chunk) "")); done.
Qed.

Lemma in_step_consume evs : in_step (consume evs).
Proof.
  unfold consume. generalize in_step_start. generalize loop_start.
  induction evs as [|ev evs IH]; intros s Hs; simpl; [done|].
  apply IH. by apply in_step_on_event.
Qed.

(** C6, as the code has it: when the stream raises, the content of the
    reply widget becomes the error detail and the traceback; the text
    accumulated so far is not part of it, the tool hints stay. *)
Theorem send_message_error_view {Client} (self : ChatApp Client) (content : string)
    (stream : event_stream) (format_exc : exn -> string) (exc : exn) :
  raised stream = Some exc ->
  let w := reply_widget (_send_message self content stream format_exc) in
  let detail :=
    "[red]Error:[/red] " +:+ exc_str exc +:+ newline +:+ newline
    +:+ "[dim]" +:+ format_exc exc +:+ "[/dim]" in
  _content w = detail /\
  _tool_calls w = tool_calls (consume (events stream)) /\
  rendered w
    = _build_markup "assistant" detail (tool_calls (consume (events stream))) false.
Proof.
  intros Hraised. unfold _send_message. rewrite Hraised. simpl.
  destruct (in_step_consume (events stream)) as [Hrole Htcs].
  rewrite Hrole, Htcs. done.
Qed.

End stream_facts.

(** C6 as stated fails: the text received before the failure is not in
    the view that shows the error. *)
Lemma error_view_drops_text :
  ~ (forall (self : Chat.ChatApp unit) content stream format_exc exc,
       Chat.raised stream = Some exc ->
       Chat.full_text (Chat.consume (Chat.events stream)) <> "" ->
       contains
         (Chat.rendered (Chat.reply_widget (Chat._send_message self content stream format_exc)))
         (Chat.full_text (Chat.consume (Chat.events stream))) = true).
Proof.
  intros H.
  specialize (H Sample.fresh_app "hi" Sample.broken_stream Sample.format_exc _ eq_refl).
  vm_compute in H. specialize (H ltac:(discriminate)). discriminate H.
Qed.

Lemma send_message_error_view_witness :
  Chat._content
    (Chat.reply_widget
       (Chat._send_message Sample.fresh_app "hi" Sample.broken_stream Sample.format_exc))
  = "[red]Error:[/red] boom" +:+ newline +:+ newline
    +:+ "[dim]Traceback (most recent call last): RuntimeError[/dim]".
Proof.
  apply (send_message_error_view Sample.fresh_app "hi" Sample.broken_stream
           Sample.format_exc (Exn "RuntimeError" "boom") eq_refl).
Defined.

(** * Further properties of the code *)

(** ** Strings *)

Section string_facts.
Import Chat.

Lemma str_app_cons (c : ascii) (s t : string) : String c s +:+ t = String c (s +:+ t).
Proof. reflexivity. Qed.

Lemma str_app_nil_r (s : string) : s +:+ "" = s.
Proof. induction s as [|c s IH]; [done|]. by rewrite str_app_cons, IH. Qed.

Lemma str_app_assoc (s t u : string) : (s +:+ t) +:+ u = s +:+ (t +:+ u).
Proof. induction s as [|c s IH]; [done|]. by rewrite !str_app_cons, IH. Qed.

Lemma str_app_length (s t : string) :
  String.length (s +:+ t) = String.length s + String.length t.
Proof. induction s as [|c s IH]; [done|]. rewrite str_app_cons. simpl. by rewrite IH. Qed.

Lemma str_app_nil_inv (p u : string) : "" = p +:+ u -> p = "" /\ u = "".
Proof.
  destruct p as [|c p]; intros H.
  - change ("" = u) in H. by subst u.
  - rewrite str_app_cons in H. discriminate H.
Qed.

Lemma prefix_refl (s : string) : String.prefix s s = true.
Proof.
  induction s as [|c s IH]; simpl; [done|].
  destruct (ascii_dec c c); [done|by exfalso].
Qed.

Lemma prefix_app (s t : string) : String.prefix s (s +:+ t) = true.
Proof.
  induction s as [|c s IH]; [by destruct t|].
  rewrite str_app_cons. simpl.
  destruct (ascii_dec c c); [done|by exfalso].
Qed.

(** [lstrip] goes on behind each white space character it meets. *)
Lemma lstrip_skip (s : string) :
  lstrip s = match skip_space s with Some r => lstrip r | None => s end.
Proof.
  destruct s as [|a [|b [|c r]]]; simpl; try done.
  - by destruct (is_space a).
  - destruct (is_space a); [done|]. by destruct (is_space2 a b).
  - destruct (is_space a); [done|]. destruct (is_space2 a b); [done|].
    by destruct (is_space3 a b c).
Qed.

Lemma skip_space_length (s r : string) :
  skip_space s = Some r -> String.length r < String.length s.
Proof.
  destruct s as [|a [|b [|c t]]]; simpl; try done.
  - destruct (is_space a); [|done]. intros [= <-]. simpl. lia.
  - destruct (is_space a); [intros [= <-]; simpl; lia|].
    destruct (is_space2 a b); [|done]. intros [= <-]. simpl. lia.
  - destruct (is_space a); [intros [= <-]; simpl; lia|].
    destruct (is_space2 a b); [intros [= <-]; simpl; lia|].
    destruct (is_space3 a b c); [|done]. intros [= <-]. simpl. lia.
Qed.

Lemma skip_space_split (s r : string) :
  skip_space s = Some r -> exists w, w <> "" /\ s = w +:+ r /\ skip_space w = Some "".
Proof.
  destruct s as [|a [|b [|c t]]]; simpl; try done.
  - destruct (is_space a) eqn:Ha; [|done]. intros [= <-].
    exists (String a ""). simpl. by rewrite Ha.
  - destruct (is_space a) eqn:Ha.
    + intros [= <-]. exists (String a ""). simpl. by rewrite Ha.
    + destruct (is_space2 a b) eqn:Hb; [|done]. intros [= <-].
      exists (String a (String b "")). simpl. by rewrite Ha, Hb.
  - destruct (is_space a) eqn:Ha.
    + intros [= <-]. exists (String a ""). simpl. by rewrite Ha.
    + destruct (is_space2 a b) eqn:Hb.
      * intros [= <-]. exists (String a (String b "")). simpl. by rewrite Ha, Hb.
      * destruct (is_space3 a b c) eqn:Hc; [|done]. intros [= <-].
        exists (String a (String b (String c ""))). simpl. by rewrite Ha, Hb, Hc.
Qed.

Lemma skip_space_app (w r : string) :
  skip_space w = Some "" -> skip_space (w +:+ r) = Some r.
Proof.
  destruct w as [|a [|b [|c t]]]; simpl; try done.
  - destruct (is_space a); [|done]. done.
  - destruct (is_space a); [done|].
    destruct (is_space2 a b); [|done]. done.
  - destruct (is_space a); [done|].
    destruct (is_space2 a b); [done|].
    destruct (is_space3 a b c); [|done]. intros [= ->]. done.
Qed.

Lemma skip_ind (P : string -> Prop) :
  (forall s, skip_space s = None -> P s) ->
  (forall s r, skip_space s = Some r -> P r -> P s) ->
  forall s, P s.
Proof.
  intros Hnone Hsome s.
  remember (String.length s) as n eqn:Hn. revert s Hn.
  induction n as [n IH] using lt_wf_ind. intros s ->.
  destruct (skip_space s) as [r|] eqn:E; [|by apply Hnone].
  apply (Hsome s r E). apply (IH (String.length r)); [|done].
  by apply skip_space_length.
Qed.

Lemma lstrip_suffix (s : string) : exists p, s = p +:+ lstrip s.
Proof.
  induction s as [s E|s r E [p Hp]] using skip_ind; rewrite lstrip_skip, E.
  - by exists "".
  - destruct (skip_space_split _ _ E) as (w & _ & -> & _).
    exists (w +:+ p). by rewrite str_app_assoc, <- Hp.
Qed.

Lemma lstrip_length (s : string) : String.length (lstrip s) <= String.length s.
Proof.
  destruct (lstrip_suffix s) as [p Hp]. rewrite Hp at 2. rewrite str_app_length. lia.
Qed.

Lemma skip_space_lstrip (s : string) : skip_space (lstrip s) = None.
Proof.
  induction s as [s E|s r E IH] using skip_ind; rewrite lstrip_skip, E; done.
Qed.

Lemma lstrip_lstrip (s : string) : lstrip (lstrip s) = lstrip s.
Proof. by rewrite (lstrip_skip (lstrip s)), skip_space_lstrip. Qed.

Lemma lstrip_app_blank (x y : string) : lstrip x = "" -> lstrip (x +:+ y) = lstrip y.
Proof.
  induction x as [x E|x r E IH] using skip_ind; rewrite (lstrip_skip x), E.
  - by intros ->.
  - intros Hr. destruct (skip_space_split _ _ E) as (w & _ & -> & Hw).
    rewrite str_app_assoc, (lstrip_skip (w +:+ _)), (skip_space_app _ _ Hw).
    by apply IH.
Qed.

Lemma rstrip_split (s : string) : exists z, s = rstrip s +:+ z /\ lstrip z = "".
Proof.
  induction s as [|a r (z & Hz & Hb)]; [by exists ""|].
  cbn [rstrip]. destruct (lstrip (String a r)) eqn:E.
  - by exists (String a r).
  - exists z. by rewrite str_app_cons, <- Hz.
Qed.

Lemma rstrip_tight (s : string) : tight (rstrip s).
Proof.
  induction s as [|a r IH]; intros p u Hpu Hu.
  - by destruct (str_app_nil_inv _ _ Hpu).
  - cbn [rstrip] in Hpu. destruct (lstrip (String a r)) eqn:E.
    { by destruct (str_app_nil_inv _ _ Hpu). }
    destruct p as [|c p].
    + change (String a (rstrip r) = u) in Hpu. subst u. intros Hblank.
      destruct (rstrip_split r) as (z & Hz & Hb).
      pose proof (lstrip_app_blank (String a (rstrip r)) z Hblank) as H.
      rewrite str_app_cons, <- Hz, E, Hb in H. done.
    + rewrite str_app_cons in Hpu. injection Hpu as -> Hpu. by apply (IH p u).
Qed.

Lemma rstrip_of_tight (t : string) : tight t -> rstrip t = t.
Proof.
  induction t as [|a r IH]; [done|]. intros Ht. cbn [rstrip].
  destruct (lstrip (String a r)) eqn:E.
  - by destruct (Ht "" (String a r) eq_refl).
  - rewrite IH; [done|]. intros p u -> Hu. by apply (Ht (String a p) u).
Qed.

Lemma lstrip_tight (t : string) : tight t -> tight (lstrip t).
Proof.
  intros Ht p u Hpu Hu. destruct (lstrip_suffix t) as [p0 Hp0].
  apply (Ht (p0 +:+ p) u); [|done]. by rewrite str_app_assoc, <- Hpu.
Qed.

Lemma strip_tight (s : string) : tight (strip s).
Proof. apply lstrip_tight, rstrip_tight. Qed.

Example strip_no_break_space :
  strip (utf8 160 +:+ "chat-2026-11-03-x" +:+ utf8 160 +:+ newline) = "chat-2026-11-03-x".
Proof. reflexivity. Qed.

Example strip_zero_width_space : strip (utf8 8203 +:+ " ") = utf8 8203.
Proof. reflexivity. Qed.

Lemma strip_strip (s : string) : strip (strip s) = strip s.
Proof.
  unfold strip at 1. rewrite (rstrip_of_tight _ (strip_tight s)).
  unfold strip. apply lstrip_lstrip.
Qed.

(** The byte patterns of [skip_space] are the encodings of the code
    points of [unicode_white_space]. *)
Lemma white_skip (w : string) : white w -> w <> "" /\ skip_space w = Some "".
Proof.
  intros (cp & Hcp & ->).
  assert (H : forallb (fun cp => bool_decide (utf8 cp <> "" /\ skip_space (utf8 cp) = Some ""))
                unicode_white_space = true) by (by vm_compute).
  rewrite forallb_forall in H. apply list_elem_of_In in Hcp.
  exact (bool_decide_eq_true_1 _ (H _ Hcp)).
Qed.

Lemma lstrip_white (w r : string) : white w -> lstrip (w +:+ r) = lstrip r.
Proof.
  intros [_ Hw]%white_skip. by rewrite lstrip_skip, (skip_space_app _ _ Hw).
Qed.

Lemma lstrip_blank (s : string) : blank s -> lstrip s = "".
Proof.
  intros (cps & Hcps & ->). induction Hcps as [|cp cps Hcp _ IH]; [done|].
  simpl. rewrite lstrip_white; [done|]. by exists cp.
Qed.

Lemma rstrip_blank (s : string) : lstrip s = "" -> rstrip s = "".
Proof. destruct s as [|a r]; [done|]. intros H. cbn [rstrip]. by rewrite H. Qed.

Lemma strip_blank (s : string) : blank s -> strip s = "".
Proof. intros H. unfold strip. by rewrite (rstrip_blank _ (lstrip_blank _ H)). Qed.

Lemma strip_trimmed (s : string) : trimmed (strip s).
Proof.
  intros w r Hw. split.
  - intros E. pose proof (lstrip_white w r Hw) as H. rewrite <- E in H.
    unfold strip in H at 1. rewrite lstrip_lstrip in H. fold (strip s) in H.
    pose proof (lstrip_length r) as Hlen. rewrite <- H, E, str_app_length in Hlen.
    destruct (white_skip _ Hw) as [Hne _]. destruct w; [done|]. simpl in Hlen. lia.
  - intros E. destruct (white_skip _ Hw) as [Hne Hskip].
    apply (strip_tight s r w E Hne).
    by rewrite lstrip_skip, Hskip.
Qed.

(** Conversely [skip_space] removes nothing but such an encoding. *)
Lemma white_dec_white (w : string) : white_dec w = true -> white w.
Proof.
  intros H. apply bool_decide_eq_true_1 in H.
  apply list_elem_of_fmap in H as (cp & -> & Hcp). by exists cp.
Qed.

Lemma ascii_of_nat_eq (a : ascii) (n : nat) : nat_of_ascii a = n -> a = ascii_of_nat n.
Proof. intros <-. by rewrite ascii_nat_embedding. Qed.

(** A property of bytes checked on the 256 of them. *)
Lemma byte_cases (P : ascii -> bool) :
  forallb (fun n => P (ascii_of_nat n)) (seq 0 256) = true -> forall c, P c = true.
Proof.
  intros H c. rewrite <- (ascii_nat_embedding c).
  rewrite forallb_forall in H. apply H. apply in_seq.
  pose proof (nat_ascii_bounded c). lia.
Qed.

Lemma white_last_byte (f : ascii -> bool) (pre : ascii -> string) :
  forallb (fun n => implb (f (ascii_of_nat n)) (white_dec (pre (ascii_of_nat n))))
    (seq 0 256) = true ->
  forall c, f c = true -> white (pre c).
Proof.
  intros H c Hc.
  pose proof (byte_cases (fun c => implb (f c) (white_dec (pre c))) H c) as Hw.
  simpl in Hw. rewrite Hc in Hw. by apply white_dec_white.
Qed.

Lemma is_space_white (a : ascii) : is_space a = true -> white (String a "").
Proof. apply (white_last_byte is_space (fun a => String a "")). by vm_compute. Qed.

Lemma is_space2_white (a b : ascii) :
  is_space2 a b = true -> white (String a (String b "")).
Proof.
  intros H. pose proof H as H0. unfold is_space2 in H0.
  apply andb_true_iff in H0 as [Ha _]. apply Nat.eqb_eq, ascii_of_nat_eq in Ha. subst a.
  revert b H.
  apply (white_last_byte (is_space2 (ascii_of_nat 194))
           (fun b => String (ascii_of_nat 194) (String b ""))).
  by vm_compute.
Qed.

Lemma is_space3_lead (a b c : ascii) :
  is_space3 a b c = true ->
  (nat_of_ascii a = 225 /\ nat_of_ascii b = 154) \/
  (nat_of_ascii a = 226 /\ nat_of_ascii b = 128) \/
  (nat_of_ascii a = 226 /\ nat_of_ascii b = 129) \/
  (nat_of_ascii a = 227 /\ nat_of_ascii b = 128).
Proof.
  unfold is_space3. intros H.
  repeat match type of H with
         | (_ || _) = true => apply orb_true_iff in H as [H|H]
         end.
  all: apply andb_true_iff in H as [H _]; apply andb_true_iff in H as [Ha Hb].
  all: apply Nat.eqb_eq in Ha, Hb; tauto.
Qed.

Lemma is_space3_white (a b c : ascii) :
  is_space3 a b c = true -> white (String a (String b (String c ""))).
Proof.
  intros H.
  destruct (is_space3_lead _ _ _ H) as [[Ha Hb]|[[Ha Hb]|[[Ha Hb]|[Ha Hb]]]];
    apply ascii_of_nat_eq in Ha, Hb; subst a b; revert c H;
    match goal with
    | |- forall c, is_space3 ?x ?y c = true -> _ =>
        apply (white_last_byte (is_space3 x y)
                 (fun c => String x (String y (String c ""))))
    end; by vm_compute.
Qed.

Lemma skip_space_white (s r : string) :
  skip_space s = Some r -> exists w, white w /\ s = w +:+ r.
Proof.
  destruct s as [|a [|b [|c t]]]; simpl; try done.
  - destruct (is_space a) eqn:Ha; [|done]. intros [= <-].
    exists (String a ""). split; [by apply is_space_white|done].
  - destruct (is_space a) eqn:Ha.
    + intros [= <-]. exists (String a ""). split; [by apply is_space_white|done].
    + destruct (is_space2 a b) eqn:Hb; [|done]. intros [= <-].
      exists (String a (String b "")). split; [by apply is_space2_white|done].
  - destruct (is_space a) eqn:Ha.
    + intros [= <-]. exists (String a ""). split; [by apply is_space_white|done].
    + destruct (is_space2 a b) eqn:Hb.
      * intros [= <-]. exists (String a (String b "")).
        split; [by apply is_space2_white|done].
      * destruct (is_space3 a b c) eqn:Hc; [|done]. intros [= <-].
        exists (String a (String b (String c ""))).
        split; [by apply is_space3_white|done].
Qed.

Lemma blank_nil : blank "".
Proof. by exists []. Qed.

Lemma blank_cons (w r : string) : white w -> blank r -> blank (w +:+ r).
Proof.
  intros (cp & Hcp & ->) (cps & Hcps & ->). exists (cp :: cps).
  split; [by constructor|done].
Qed.

Lemma blank_app (x y : string) : blank x -> blank y -> blank (x +:+ y).
Proof.
  intros (cps & Hcps & ->) Hy. induction Hcps as [|cp cps Hcp _ IH]; [done|].
  simpl. rewrite str_app_assoc. apply blank_cons; [by exists cp|done].
Qed.

Lemma blank_of_lstrip (z : string) : lstrip z = "" -> blank z.
Proof.
  induction z as [z E|z r E IH] using skip_ind; rewrite lstrip_skip, E.
  - intros ->. apply blank_nil.
  - intros Hr. destruct (skip_space_white _ _ E) as (w & Hw & ->).
    apply blank_cons; [done|by apply IH].
Qed.

Lemma lstrip_blank_prefix (s : string) : exists p, blank p /\ s = p +:+ lstrip s.
Proof.
  induction s as [s E|s r E (p & Hp & Hs)] using skip_ind; rewrite lstrip_skip, E.
  - exists "". split; [apply blank_nil|done].
  - destruct (skip_space_white _ _ E) as (w & Hw & ->).
    exists (w +:+ p). split; [by apply blank_cons|].
    by rewrite str_app_assoc, <- Hs.
Qed.

(** [strip] takes white space off both ends and nothing else. *)
Lemma strip_split (s : string) :
  exists p z, blank p /\ blank z /\ s = p +:+ strip s +:+ z.
Proof.
  destruct (rstrip_split s) as (z & Hz & Hb).
  destruct (lstrip_blank_prefix (rstrip s)) as (p & Hp & Hs).
  exists p, z. split; [done|]. split; [by apply blank_of_lstrip|].
  unfold strip. by rewrite <- str_app_assoc, <- Hs.
Qed.

(** Plain ASCII text is left as it is. *)
Lemma plain_app (s t : string) :
  plain (s +:+ t) = plain s && plain t.
Proof.
  induction s as [|c s IH]; [done|]. rewrite str_app_cons. simpl.
  rewrite IH. by rewrite andb_assoc.
Qed.

Lemma skip_space_plain (s : string) : plain s = true -> skip_space s = None.
Proof.
  destruct s as [|a r]; [done|]. simpl.
  intros [[Ha Hs]%andb_true_iff Hr]%andb_true_iff.
  apply negb_true_iff in Hs. rewrite Hs.
  assert (H2 : forall b, is_space2 a b = false).
  { intros b. unfold is_space2. apply Nat.ltb_lt in Ha.
    destruct (nat_of_ascii a =? 194) eqn:E; [apply Nat.eqb_eq in E; lia|done]. }
  assert (H3 : forall b c, is_space3 a b c = false).
  { intros b c. unfold is_space3. apply Nat.ltb_lt in Ha.
    destruct (nat_of_ascii a =? 225) eqn:E1; [apply Nat.eqb_eq in E1; lia|].
    destruct (nat_of_ascii a =? 226) eqn:E2; [apply Nat.eqb_eq in E2; lia|].
    destruct (nat_of_ascii a =? 227) eqn:E3; [apply Nat.eqb_eq in E3; lia|]. done. }
  destruct r as [|b [|c t]]; [done|by rewrite H2|by rewrite H2, H3].
Qed.

Lemma plain_tight (s : string) : plain s = true -> tight s.
Proof.
  intros Hs p u -> Hu. rewrite plain_app in Hs. apply andb_true_iff in Hs as [_ Hs].
  by rewrite lstrip_skip, (skip_space_plain _ Hs).
Qed.

Lemma strip_plain (s : string) : plain s = true -> strip s = s.
Proof.
  intros Hs. unfold strip. rewrite (rstrip_of_tight _ (plain_tight _ Hs)).
  by rewrite lstrip_skip, (skip_space_plain _ Hs).
Qed.

Lemma plain_pretty_N_char (x : N) :
  (nat_of_ascii (pretty_N_char x) <? 128) && negb (is_space (pretty_N_char x)) = true.
Proof. unfold pretty_N_char. by repeat case_match. Qed.

Lemma plain_pretty_N_go (x : N) (s : string) :
  plain s = true -> plain (pretty_N_go x s) = true.
Proof.
  revert s. induction (N.lt_wf_0 x) as [x _ IH]; intros s Hs.
  assert (x = 0 \/ 0 < x)%N as [->|Hx] by lia.
  - by rewrite pretty_N_go_0.
  - rewrite pretty_N_go_step by done. apply IH.
    + by apply N.div_lt.
    + cbn [plain]. by rewrite plain_pretty_N_char.
Qed.

Lemma plain_pretty (n : nat) : plain (pretty n) = true.
Proof.
  unfold pretty, pretty_nat, pretty, pretty_N.
  case_decide; [done|]. by apply plain_pretty_N_go.
Qed.

Lemma plain_zeros (k : nat) : plain (String.concat "" (replicate k "0")) = true.
Proof.
  induction k as [|k IH]; [done|].
  cbn [replicate String.concat]. destruct (replicate k "0") eqn:E; [done|].
  change (plain ("0" +:+ ("" +:+ String.concat "" (s :: l))) = true).
  by rewrite !plain_app, IH.
Qed.

Lemma plain_zfill (w n : nat) : plain (zfill w n) = true.
Proof. unfold zfill. by rewrite plain_app, plain_zeros, plain_pretty. Qed.

Lemma plain_daily_id (now : datetime) :
  plain ("chat-" +:+ strftime_Y_m_d now) = true.
Proof. unfold strftime_Y_m_d. by rewrite !plain_app, !plain_zfill. Qed.

End string_facts.

(** ** More on the graph *)

Section graph_more.
Import Graph.

Context {ChatModel : Type}.
Variable load_chat_model : pyval -> list Tool -> result ChatModel.
Variable ainvoke : ChatModel -> list Message -> result Message.
Variable format : pyval -> string -> result string.
Variable ToolNode : list Tool -> State -> result (list Message).
Variable tools_arg : option (list Tool).

Local Abbreviation call_model := (call_model load_chat_model ainvoke format tools_arg).
Local Abbreviation run := (run load_chat_model ainvoke format ToolNode tools_arg).
Local Abbreviation replies := (replies load_chat_model ainvoke format tools_arg).

(** X1: unless the step is the last one and the reply requests tools,
    [call_model] returns the reply of the model unchanged; in particular a
    final answer given on the last step is kept. *)
Theorem call_model_passes_reply
    (state : State) (context : Config.Context) (t : string) (response : Message) :
  replies (messages state) context t response ->
  is_last_step state = false \/ tool_calls response = [] ->
  call_model state context t = Ok [response].
Proof.
  intros Hr Hcase. rewrite (call_model_replies _ _ _ _ _ _ _ _ Hr).
  destruct Hcase as [->| ->]; [done|]. by rewrite andb_false_r.
Qed.

(** X2: [call_model] raises exactly the exception of the first of its
    three calls that fails: loading the model, formatting the prompt,
    invoking the model. *)
Theorem call_model_raises
    (state : State) (context : Config.Context) (t : string) (e : exn) :
  call_model state context t = Raise e <->
  load_chat_model (context Config.model) (tools tools_arg) = Raise e \/
  (exists model,
      load_chat_model (context Config.model) (tools tools_arg) = Ok model /\
      format (context Config.system_prompt) t = Raise e) \/
  (exists model system_message,
      load_chat_model (context Config.model) (tools tools_arg) = Ok model /\
      format (context Config.system_prompt) t = Ok system_message /\
      ainvoke model (system_input system_message :: messages state) = Raise e).
Proof.
  unfold Graph.call_model.
  destruct (load_chat_model _ _) as [model|e1] eqn:Hl; simpl.
  - destruct (format _ _) as [sys|e2] eqn:Hf; simpl.
    + destruct (ainvoke _ _) as [response|e3] eqn:Ha; simpl.
      * split.
        -- by destruct (is_last_step state && truthy (tool_calls response)).
        -- intros [?|[(m & _ & ?)|(m & sy & Hm & Hs & Hi)]]; try done.
           injection Hm as <-. injection Hs as <-. by rewrite Ha in Hi.
      * split.
        -- intros [= ->]. right. right. by exists model, sys.
        -- intros [?|[(m & _ & ?)|(m & sy & Hm & Hs & Hi)]]; try done.
           injection Hm as <-. injection Hs as <-. rewrite Ha in Hi.
           by injection Hi as ->.
    + split.
      * intros [= ->]. right. left. by exists model.
      * intros [?|[(m & _ & [= ->])|(m & sy & _ & ? & _)]]; done.
  - split.
    + intros [= ->]. by left.
    + intros [[= ->]|[(m & ? & _)|(m & sy & ? & _)]]; done.
Qed.

(** X3: [route_model_output] raises [IndexError] on an empty message list,
    and otherwise looks at the last message only: neither the earlier
    messages nor [is_last_step] change the edge or the error. *)
Theorem route_model_output_last_only :
  (forall b, route_model_output {| messages := []; is_last_step := b |}
             = Raise (Exn "IndexError" "list index out of range")) /\
  (forall msgs1 msgs2 m b1 b2,
     route_model_output {| messages := msgs1 ++ [m]; is_last_step := b1 |}
     = route_model_output {| messages := msgs2 ++ [m]; is_last_step := b2 |}).
Proof.
  split; [done|]. intros msgs1 msgs2 m b1 b2.
  by rewrite !(route_last _ _ m) by apply last_snoc.
Qed.

Lemma route_after_answer msgs response b :
  class response = AIMessage ->
  tool_calls response = [] ->
  route_model_output {| messages := msgs ++ [response]; is_last_step := b |} = Ok END.
Proof.
  intros Hcls Htc. rewrite (route_last _ _ response) by apply last_snoc.
  unfold is_AIMessage. rewrite bool_decide_eq_true_2 by done. by rewrite Htc.
Qed.

Lemma run_answers_at_once_aux context is_last_step_at system_time_at
    fuel step msgs visited response :
  replies msgs context (system_time_at step) response ->
  class response = AIMessage ->
  tool_calls response = [] ->
  fresh_for response msgs ->
  run context is_last_step_at system_time_at (S fuel) step msgs visited
  = Finished (msgs ++ [response]) (visited ++ [n_call_model]).
Proof.
  intros Hr Hcls Htc Hfresh. simpl.
  rewrite (call_model_replies _ _ _ _
             {| messages := msgs; is_last_step := is_last_step_at step |} _ _ _ Hr).
  rewrite Htc, andb_false_r. rewrite (add_messages_fresh _ _ Hfresh).
  by rewrite route_after_answer.
Qed.

(** X4: when the model answers without a tool call, the run finishes
    after that single model call, on the last step or not: the answer is
    appended and the tool node is not visited. *)
Theorem run_answers_at_once (context : Config.Context)
    (is_last_step_at : nat -> bool) (system_time_at : nat -> string)
    (fuel step : nat) (msgs : list Message) (visited : list node) (response : Message) :
  replies msgs context (system_time_at step) response ->
  class response = AIMessage ->
  tool_calls response = [] ->
  fresh_for response msgs ->
  run context is_last_step_at system_time_at (S fuel) step msgs visited
  = Finished (msgs ++ [response]) (visited ++ [n_call_model]).
Proof. apply run_answers_at_once_aux. Qed.

(** One round: a reply that requests tools before the last step sends the
    run through the tool node and back to the model. *)
Lemma run_round context is_last_step_at system_time_at fuel step msgs visited
    response results :
  replies msgs context (system_time_at step) response ->
  class response = AIMessage ->
  tool_calls response <> [] ->
  fresh_for response msgs ->
  is_last_step_at step = false ->
  ToolNode (tools tools_arg)
    {| messages := msgs ++ [response]; is_last_step := is_last_step_at (S step) |}
  = Ok results ->
  run context is_last_step_at system_time_at (S fuel) step msgs visited
  = run context is_last_step_at system_time_at fuel (S (S step))
      (add_messages (msgs ++ [response]) results)
      ((visited ++ [n_call_model]) ++ [n_tools]).
Proof.
  intros Hr Hcls Htc Hfresh Hstep Hnode. cbn [Graph.run].
  rewrite (call_model_replies _ _ _ _
             {| messages := msgs; is_last_step := is_last_step_at step |} _ _ _ Hr).
  cbn [is_last_step]. rewrite Hstep. cbn [andb].
  rewrite (add_messages_fresh _ _ Hfresh).
  rewrite (route_last _ _ response) by apply last_snoc.
  unfold is_AIMessage. rewrite bool_decide_eq_true_2 by done.
  apply truthy_true in Htc. rewrite Htc. cbn [negb].
  change (String.eqb TOOLS END) with false. cbv iota.
  by rewrite Hnode.
Qed.

(** X5: a request for tools followed by an answer makes the run visit
    the model, the tool node and the model again, then stop; the state
    ends with the request, the tool results and the answer merged in. *)
Theorem run_tool_round_then_answer (context : Config.Context)
    (is_last_step_at : nat -> bool) (system_time_at : nat -> string)
    (fuel step : nat) (msgs : list Message) (visited : list node)
    (request : Message) (results : list Message) (answer : Message) :
  replies msgs context (system_time_at step) request ->
  class request = AIMessage ->
  tool_calls request <> [] ->
  fresh_for request msgs ->
  is_last_step_at step = false ->
  ToolNode (tools tools_arg)
    {| messages := msgs ++ [request]; is_last_step := is_last_step_at (S step) |}
  = Ok results ->
  replies (add_messages (msgs ++ [request]) results) context
    (system_time_at (S (S step))) answer ->
  class answer = AIMessage ->
  tool_calls answer = [] ->
  fresh_for answer (add_messages (msgs ++ [request]) results) ->
  run context is_last_step_at system_time_at (S (S fuel)) step msgs visited
  = Finished (add_messages (msgs ++ [request]) results ++ [answer])
      (visited ++ [n_call_model; n_tools; n_call_model]).
Proof.
  intros Hr1 Hc1 Ht1 Hf1 Hstep Hnode Hr2 Hc2 Ht2 Hf2.
  rewrite (run_round _ _ _ _ _ _ _ _ _ Hr1 Hc1 Ht1 Hf1 Hstep Hnode).
  rewrite (run_answers_at_once_aux context is_last_step_at system_time_at fuel _ _ _ _
             Hr2 Hc2 Ht2 Hf2).
  f_equal. by rewrite <- !app_assoc.
Qed.

End graph_more.

Lemma call_model_passes_reply_witness :
  Graph.call_model Sample.load_chat_model Sample.ainvoke Sample.format None
    {| Graph.messages := [Sample.human "What is new?"]; Graph.is_last_step := false |}
    Sample.context "2026-01-01T00:00:00+00:00"
  = Ok [Sample.tool_reply].
Proof.
  apply (call_model_passes_reply Sample.load_chat_model Sample.ainvoke Sample.format None
           {| Graph.messages := [Sample.human "What is new?"];
              Graph.is_last_step := false |}
           Sample.context "2026-01-01T00:00:00+00:00" Sample.tool_reply sample_replies).
  by left.
Defined.

Lemma sample_fresh_answer :
  Graph.fresh_for Sample.answer
    [Sample.human "What is new?"; Sample.tool_reply; Sample.tool_result Sample.search_call].
Proof. repeat constructor. Defined.

Lemma run_answers_at_once_witness :
  Graph.run Sample.load_chat_model Sample.ainvoke_once Sample.format Sample.ToolNode None
    Sample.context (fun _ => true) (fun _ => "2026-01-01T00:00:00+00:00") 1 0
    [Sample.human "What is new?"; Sample.tool_reply; Sample.tool_result Sample.search_call]
    []
  = Graph.Finished
      ([Sample.human "What is new?"; Sample.tool_reply;
        Sample.tool_result Sample.search_call] ++ [Sample.answer])
      ([] ++ [Graph.n_call_model]).
Proof.
  apply (run_answers_at_once Sample.load_chat_model Sample.ainvoke_once Sample.format
           Sample.ToolNode None Sample.context (fun _ => true)
           (fun _ => "2026-01-01T00:00:00+00:00") 0 0).
  - exists (), "System time: 2026-01-01T00:00:00+00:00". done.
  - reflexivity.
  - reflexivity.
  - exact sample_fresh_answer.
Defined.

Lemma run_tool_round_then_answer_witness :
  Graph.run Sample.load_chat_model Sample.ainvoke_once Sample.format Sample.ToolNode None
    Sample.context (fun _ => false) (fun _ => "2026-01-01T00:00:00+00:00") 2 0
    [Sample.human "What is new?"] []
  = Graph.Finished
      (Graph.add_messages ([Sample.human "What is new?"] ++ [Sample.tool_reply])
         [Sample.tool_result Sample.search_call] ++ [Sample.answer])
      ([] ++ [Graph.n_call_model; Graph.n_tools; Graph.n_call_model]).
Proof.
  apply (run_tool_round_then_answer Sample.load_chat_model Sample.ainvoke_once
           Sample.format Sample.ToolNode None Sample.context (fun _ => false)
           (fun _ => "2026-01-01T00:00:00+00:00") 0 0 [Sample.human "What is new?"] []
           Sample.tool_reply [Sample.tool_result Sample.search_call] Sample.answer).
  - exists (), "System time: 2026-01-01T00:00:00+00:00". done.
  - reflexivity.
  - discriminate.
  - repeat constructor.
  - reflexivity.
  - reflexivity.
  - exists (), "System time: 2026-01-01T00:00:00+00:00". done.
  - reflexivity.
  - reflexivity.
  - exact sample_fresh_answer.
Defined.

(** ** More on the configuration object *)

Section context_more.
Import Config.

Lemma new_Context_at env kwargs f :
  new_Context env kwargs f =
    if py_eq (dataclass_init kwargs f) (default f)
    then environ_get env (upper (name f)) (default f)
    else dataclass_init kwargs f.
Proof. unfold new_Context. apply post_init_at. Qed.

(** X7: when none of [SYSTEM_PROMPT], [MODEL] and [MAX_SEARCH_RESULTS] is
    in the environment, every field holds the constructor argument, or the
    declared default when the argument was left out. *)
Theorem new_Context_without_environment (env : environ)
    (kwargs : field -> option pyval) (f : field) :
  env !! "SYSTEM_PROMPT" = None ->
  env !! "MODEL" = None ->
  env !! "MAX_SEARCH_RESULTS" = None ->
  new_Context env kwargs f
  = match kwargs f with Some v => v | None => default f end.
Proof.
  intros H1 H2 H3.
  assert (Hk : env !! upper (name f) = None) by (by destruct f).
  rewrite new_Context_at. unfold environ_get. rewrite Hk.
  fold (dataclass_init kwargs f).
  destruct (py_eq (dataclass_init kwargs f) (default f)) eqn:E; [|done].
  symmetry. by apply py_eq_eq.
Qed.

(** X8: running [__post_init__] a second time under the same environment
    changes no field. *)
Theorem post_init_idempotent (env : environ) (self : Context) (f : field) :
  __post_init__ env (__post_init__ env self) f = __post_init__ env self f.
Proof.
  rewrite (post_init_at env (__post_init__ env self)), post_init_at.
  destruct (py_eq (self f) (default f)) eqn:E.
  - unfold environ_get. destruct (env !! upper (name f)) as [s|].
    + by destruct (py_eq (PStr s) (default f)).
    + by rewrite (proj2 (py_eq_eq _ _) eq_refl).
  - by rewrite E.
Qed.

(** X9: a field is decided by its own constructor argument and by the
    environment variable of its own uppercased name; other arguments and
    other variables do not reach it. *)
Theorem new_Context_field_local (env1 env2 : environ)
    (kwargs1 kwargs2 : field -> option pyval) (f : field) :
  kwargs1 f = kwargs2 f ->
  env1 !! upper (name f) = env2 !! upper (name f) ->
  new_Context env1 kwargs1 f = new_Context env2 kwargs2 f.
Proof.
  intros Hk He. rewrite !new_Context_at. unfold dataclass_init, environ_get.
  by rewrite Hk, He.
Qed.

(** X10: after construction a field holds a [str] exactly when its
    constructor value is a [str], or equals the default while the
    environment variable is set; so an [int] passed for
    [max_search_results] stays an [int] unless it is 10 and
    [MAX_SEARCH_RESULTS] is set. *)
Theorem new_Context_is_str (env : environ)
    (kwargs : field -> option pyval) (f : field) :
  is_str (new_Context env kwargs f)
  = is_str (dataclass_init kwargs f)
    || (py_eq (dataclass_init kwargs f) (default f)
        && bool_decide (is_Some (env !! upper (name f)))).
Proof.
  rewrite new_Context_at. unfold environ_get.
  destruct (py_eq (dataclass_init kwargs f) (default f)) eqn:E.
  - apply py_eq_eq in E. rewrite E.
    destruct (env !! upper (name f)) as [s|]; simpl.
    + by rewrite orb_true_r.
    + by rewrite orb_false_r.
  - simpl. by rewrite orb_false_r.
Qed.

End context_more.

Lemma new_Context_without_environment_witness :
  Config.new_Context {[ "model" := "ignored" ]}
    (Config.kwarg Config.max_search_results (PInt 3)) Config.max_search_results
  = PInt 3.
Proof.
  apply (new_Context_without_environment {[ "model" := "ignored" ]}
           (Config.kwarg Config.max_search_results (PInt 3)) Config.max_search_results);
    vm_compute; reflexivity.
Defined.

Lemma new_Context_field_local_witness :
  Config.new_Context {[ "MODEL" := "a" ]} Config.no_kwargs Config.max_search_results
  = Config.new_Context ∅ (Config.kwarg Config.model (PStr "b")) Config.max_search_results.
Proof.
  apply (new_Context_field_local {[ "MODEL" := "a" ]} ∅ Config.no_kwargs
           (Config.kwarg Config.model (PStr "b")) Config.max_search_results).
  - reflexivity.
  - vm_compute. reflexivity.
Defined.

(** ** The search tool *)

Section tools_facts.
Import Config.

Context {Answer : Type}.
Variable TavilySearch : pyval -> string -> result Answer.

(** X11: under a context built without arguments, as [_send_message]
    builds it, [web_search] hands Tavily the text of [MAX_SEARCH_RESULTS]
    when the variable is set, and the integer 10 otherwise. *)
Theorem web_search_max_results (env : environ) (query : string) :
  Tools.web_search TavilySearch (new_Context env no_kwargs) query
  = TavilySearch
      (match env !! "MAX_SEARCH_RESULTS" with
       | Some s => PStr s
       | None => PInt 10
       end) query.
Proof. unfold Tools.web_search. by rewrite new_Context_at. Qed.

End tools_facts.

(** ** More on thread identifiers *)

Section thread_more.
Import Chat.

Lemma daily_id_clean (now : datetime) :
  strip ("chat-" +:+ strftime_Y_m_d now) = "chat-" +:+ strftime_Y_m_d now.
Proof.
  apply strip_plain, plain_daily_id.
Qed.

Lemma daily_thread_id_cases now file :
  (_daily_thread_id now file = "chat-" +:+ strftime_Y_m_d now) \/
  (exists text, file = Some text /\
     _daily_thread_id now file = strip text /\
     startswith (strip text) ("chat-" +:+ strftime_Y_m_d now) = true).
Proof.
  unfold _daily_thread_id. destruct file as [text|]; [|by left].
  destruct (startswith (strip text) _) eqn:E; [|by left].
  right. by exists text.
Qed.

(** X12: when [_THREAD_FILE] is absent or its text has been read, the
    identifier [_daily_thread_id] returns starts with today's
    ["chat-YYYY-MM-DD"] and neither starts nor ends with a white space
    character, ASCII or not, so that saving it and reading it back gives
    the same text. *)
Theorem daily_thread_id_of_today (now : datetime) (file : option string) :
  startswith (_daily_thread_id now file) ("chat-" +:+ strftime_Y_m_d now) = true /\
  strip (_daily_thread_id now file) = _daily_thread_id now file /\
  trimmed (_daily_thread_id now file).
Proof.
  assert (H : startswith (_daily_thread_id now file) ("chat-" +:+ strftime_Y_m_d now) = true /\
              strip (_daily_thread_id now file) = _daily_thread_id now file).
  { destruct (daily_thread_id_cases now file) as [->|(text & _ & -> & Hp)].
    - split; [apply prefix_refl|apply daily_id_clean].
    - split; [exact Hp|apply strip_strip]. }
  destruct H as [H1 H2]. split; [done|]. split; [done|].
  rewrite <- H2. apply strip_trimmed.
Qed.

Lemma daily_thread_id_again now later file :
  strftime_Y_m_d now = strftime_Y_m_d later ->
  _daily_thread_id later (_save_thread_id (_daily_thread_id now file))
  = _daily_thread_id now file.
Proof.
  intros Hday.
  destruct (daily_thread_id_cases now file) as [E|(text & _ & E & Hp)]; rewrite E.
  - unfold _daily_thread_id, _save_thread_id. rewrite <- Hday, daily_id_clean.
    unfold startswith. by rewrite prefix_refl.
  - unfold _daily_thread_id, _save_thread_id. rewrite <- Hday, strip_strip.
    by rewrite Hp.
Qed.

(** X13: an application started without a new-thread action sends a
    message, which saves its thread identifier whether the stream ends or
    raises; started again on the same UTC day, the application resumes
    that identifier. *)
Theorem restart_resumes_thread {Client} (now later : datetime) (file : option string)
    (content : string) (stream : event_stream) (format_exc : exn -> string) :
  strftime_Y_m_d now = strftime_Y_m_d later ->
  let app : ChatApp Client := new_ChatApp now file in
  let saved := thread_file (_send_message app content stream format_exc) in
  saved = Some (thread_id app) /\
  thread_id (new_ChatApp (Client := Client) later saved) = thread_id app.
Proof.
  intros Hday. simpl. split; [done|]. by apply daily_thread_id_again.
Qed.

End thread_more.

Lemma restart_resumes_thread_witness :
  Chat.thread_id
    (Chat.new_ChatApp (Client := unit) Sample.evening
       (Chat.thread_file
          (Chat._send_message (Chat.new_ChatApp (Client := unit) Sample.afternoon None)
             "hi" Sample.broken_stream Sample.format_exc)))
  = "chat-2026-11-03".
Proof.
  apply (restart_resumes_thread (Client := unit) Sample.afternoon Sample.evening None
           "hi" Sample.broken_stream Sample.format_exc eq_refl).
Defined.

(** ** More on the reply stream *)

Section stream_more.
Import Chat.

Lemma on_event_full_text s ev :
  full_text (on_event s ev) = full_text s +:+ event_text ev.
Proof.
  destruct ev as [name|[chunk|]|kind]; simpl; try by rewrite str_app_nil_r.
  destruct (String.eqb (added_text chunk) "") eqn:E; simpl; [|done].
  apply String.eqb_eq in E. by rewrite E, str_app_nil_r.
Qed.

Lemma on_event_tool_calls s ev :
  tool_calls (on_event s ev) =
    match ev with
    | on_tool_start name =>
        if bool_decide (default "tool" name ∈ tool_calls s) then tool_calls s
        else tool_calls s ++ [default "tool" name]
    | _ => tool_calls s
    end.
Proof.
  destruct ev as [name|[chunk|]|kind]; simpl; try done.
  by destruct (negb (String.eqb (added_text chunk) "")).
Qed.

Lemma loop_full_text evs s :
  full_text (foldl on_event s evs) = full_text s +:+ stream_text evs.
Proof.
  revert s. induction evs as [|ev evs IH]; intros s; simpl.
  - by rewrite str_app_nil_r.
  - by rewrite IH, on_event_full_text, str_app_assoc.
Qed.

Lemma loop_tool_calls evs s :
  NoDup (tool_calls s) ->
  NoDup (tool_calls (foldl on_event s evs)) /\
  (forall x, x ∈ tool_calls (foldl on_event s evs) <-> x ∈ tool_calls s \/ x ∈ started evs) /\
  tool_calls s `prefix_of` tool_calls (foldl on_event s evs).
Proof.
  revert s. induction evs as [|ev evs IH]; intros s Hs; simpl.
  - split; [done|]. split; [|done]. intros x. rewrite elem_of_nil. tauto.
  - assert (Hstep : NoDup (tool_calls (on_event s ev)) /\
        (forall x, x ∈ tool_calls (on_event s ev) <->
                   x ∈ tool_calls s \/ x ∈ started [ev]) /\
        tool_calls s `prefix_of` tool_calls (on_event s ev)).
    { rewrite on_event_tool_calls.
      destruct ev as [name|chunk|kind]; simpl;
        try (split; [done|]; split; [|done]; intros x; rewrite elem_of_nil; tauto).
      case_bool_decide as Hin.
      - split; [done|]. split; [|done].
        intros x. rewrite list_elem_of_singleton. split; [tauto|].
        by intros [?| ->].
      - split.
        + apply NoDup_app. split; [done|]. split; [|apply NoDup_singleton].
          intros x Hx ->%list_elem_of_singleton. done.
        + split; [|by apply prefix_app_r].
          intros x. by rewrite elem_of_app. }
    destruct Hstep as (Hnd & Hel & Hpre).
    destruct (IH _ Hnd) as (Hnd' & Hel' & Hpre').
    split; [done|]. split.
    + intros x. rewrite Hel', Hel. simpl. rewrite app_nil_r, elem_of_app. tauto.
    + by etrans.
Qed.

Lemma full_text_consume (evs : list event) : full_text (consume evs) = stream_text evs.
Proof. unfold consume. by rewrite loop_full_text. Qed.

Lemma concat_texts_app (l1 l2 : list string) :
  concat_texts (l1 ++ l2) = concat_texts l1 +:+ concat_texts l2.
Proof.
  induction l1 as [|x l1 IH]; [done|].
  simpl. unfold concat_texts in *. simpl. by rewrite IH, str_app_assoc.
Qed.

Lemma block_text_texts (b : block) : block_text b = concat_texts (block_texts b).
Proof.
  destruct b as [[ty|] [text|]|]; simpl; try done.
  - destruct (String.eqb_spec ty "text") as [->|Hne].
    + simpl. by rewrite str_app_nil_r.
    + by rewrite decide_False.
  - by destruct (String.eqb ty "text").
Qed.

Lemma added_text_blocks (blocks : list block) (acc : string) :
  foldl (fun added b => added +:+ block_text b) acc blocks
  = acc +:+ concat_texts (flat_map block_texts blocks).
Proof.
  revert acc. induction blocks as [|b blocks IH]; intros acc; simpl.
  - by rewrite str_app_nil_r.
  - by rewrite IH, concat_texts_app, block_text_texts, str_app_assoc.
Qed.

Lemma event_text_received (ev : event) : event_text ev = concat_texts (received ev).
Proof.
  destruct ev as [name|[[s|blocks|]|]|kind]; simpl; try done.
  - by rewrite str_app_nil_r.
  - by rewrite added_text_blocks.
Qed.

Lemma stream_text_received (evs : list event) :
  stream_text evs = concat_texts (flat_map received evs).
Proof.
  induction evs as [|ev evs IH]; [done|].
  simpl. by rewrite concat_texts_app, IH, event_text_received.
Qed.

(** X14: the text the loop has accumulated is the concatenation, in
    order, of the pieces the model-stream events deliver: the content of
    a chunk that is a string, and for a list content the [text] of every
    dict block of type ["text"]; tool starts, other events, events
    without chunk, other contents and other blocks add nothing. *)
Theorem consume_full_text (evs : list event) :
  full_text (consume evs) = concat_texts (flat_map received evs).
Proof. by rewrite full_text_consume, stream_text_received. Qed.

(** X15: the tool list of the loop holds every tool announced by an
    [on_tool_start] event (["tool"] for an event without name), each one
    once, and nothing else. *)
Theorem consume_tool_calls (evs : list event) :
  NoDup (tool_calls (consume evs)) /\
  forall x, x ∈ tool_calls (consume evs) <-> x ∈ started evs.
Proof.
  destruct (loop_tool_calls evs loop_start (NoDup_nil_2)) as (Hnd & Hel & _).
  split; [exact Hnd|]. intros x. rewrite Hel. simpl. rewrite elem_of_nil. tauto.
Qed.

(** X16: the view only grows: after more events the accumulated text
    starts with the text accumulated before, and the tool list starts
    with the tools listed before, in the same order. *)
Theorem consume_append_only (evs more : list event) :
  String.prefix (full_text (consume evs)) (full_text (consume (evs ++ more))) = true /\
  tool_calls (consume evs) `prefix_of` tool_calls (consume (evs ++ more)).
Proof.
  unfold consume. rewrite foldl_app. split.
  - rewrite (loop_full_text more). apply prefix_app.
  - destruct (loop_tool_calls evs loop_start NoDup_nil_2) as (Hnd & _ & _).
    by destruct (loop_tool_calls more _ Hnd) as (_ & _ & Hpre).
Qed.

Lemma loop_in_view evs s :
  in_step s ->
  _content (ai_widget s) = full_text s ->
  rendered (ai_widget s) = _build_markup "assistant" (full_text s) (tool_calls s) true ->
  let s' := foldl on_event s evs in
  _content (ai_widget s') = full_text s' /\
  rendered (ai_widget s') = _build_markup "assistant" (full_text s') (tool_calls s') true.
Proof.
  revert s. induction evs as [|ev evs IH]; intros s Hs Hc Hr; simpl; [done|].
  apply IH.
  - by apply in_step_on_event.
  - destruct ev as [name|[chunk|]|kind]; simpl; try done.
    by destruct (negb (String.eqb (added_text chunk) "")).
  - destruct Hs as [Hrole _].
    destruct ev as [name|[chunk|]|kind]; simpl; try done.
    + by rewrite Hrole.
    + destruct (negb (String.eqb (added_text chunk) "")); simpl; [|done].
      by rewrite Hrole.
Qed.

(** X17: at every point of the stream the reply widget shows the state
    of the loop: its content is the accumulated text, its tool hints are
    the tool list, and its markup is the streaming markup of the two. *)
Theorem consume_in_view (evs : list event) :
  let s := consume evs in
  _content (ai_widget s) = full_text s /\
  _tool_calls (ai_widget s) = tool_calls s /\
  rendered (ai_widget s) = _build_markup "assistant" (full_text s) (tool_calls s) true.
Proof.
  simpl. destruct (in_step_consume evs) as [_ Htcs].
  destruct (loop_in_view evs loop_start in_step_start eq_refl eq_refl) as [Hc Hr].
  done.
Qed.

(** X18: when the stream ends without an exception the reply widget
    holds the accumulated text, or the marker ["(no response)"] when no
    text came, together with the tools announced; its markup is the final
    one, without the thinking hint. *)
Theorem send_message_final_view {Client} (self : ChatApp Client) (content : string)
    (stream : event_stream) (format_exc : exn -> string) :
  raised stream = None ->
  let w := reply_widget (_send_message self content stream format_exc) in
  let text := stream_text (events stream) in
  let shown := if String.eqb text "" then "(no response)" else text in
  _content w = shown /\
  _tool_calls w = tool_calls (consume (events stream)) /\
  rendered w = _build_markup "assistant" shown (tool_calls (consume (events stream))) false.
Proof.
  intros Hraised. unfold _send_message. rewrite Hraised, !full_text_consume.
  destruct (in_step_consume (events stream)) as [Hrole _].
  cbn [reply_widget set_content _content _tool_calls rendered _role].
  by rewrite Hrole.
Qed.

(** X19: however the [try] is left, the thread identifier of the
    application is written to [_THREAD_FILE] and the user widget shows the
    text sent.  The reply widget is left blank in one case only: the
    worker is cancelled before any text has arrived; when the stream ends
    or raises an [Exception] it always shows something. *)
Theorem send_message_always {Client} (self : ChatApp Client) (content : string)
    (evs : list event) (e : stream_end) (format_exc : exn -> string) :
  let r := send_message_worker self content evs e format_exc in
  thread_file r = Some (thread_id self) /\
  _content (user_widget r) = content /\
  (_content (reply_widget r) = "" <->
   e = cancelled /\ concat_texts (flat_map received evs) = "").
Proof.
  simpl. split; [by destruct e|]. split; [by destruct e|].
  rewrite <- stream_text_received, <- full_text_consume.
  destruct e as [|exc|]; simpl.
  - split; [|by intros [? _]].
    destruct (String.eqb (full_text (consume evs)) "") eqn:E; [done|].
    intros H. rewrite H in E. done.
  - split; [done|by intros [? _]].
  - destruct (loop_in_view evs loop_start in_step_start eq_refl eq_refl) as [Hc _].
    fold (consume evs) in Hc. rewrite Hc. split; [done|by intros [_ ?]].
Qed.

(** X20: input made of white space only, ASCII or not, or submitted
    before the graph is built, is not sent: nothing is streamed or saved
    and the text stays in the input box. *)
Theorem on_input_submitted_ignored {Client} (self : ChatApp Client) (value : string)
    (stream : event_stream) (format_exc : exn -> string) :
  blank value \/ graph self = None ->
  on_input_submitted self value stream format_exc = (value, None).
Proof.
  unfold on_input_submitted. intros [Hs|Hg].
  - by rewrite (strip_blank _ Hs).
  - rewrite Hg. by rewrite orb_true_r.
Qed.

(** X21: input that is sent reaches [_send_message] stripped: what the
    user widget shows is the input without the white space at its two
    ends, ASCII or not; it is not empty and neither starts nor ends with
    a white space character.  The graph is built and the input box is
    emptied. *)
Theorem on_input_submitted_sent {Client} (self : ChatApp Client) (value : string)
    (stream : event_stream) (format_exc : exn -> string) (r : sent) (left : string) :
  on_input_submitted self value stream format_exc = (left, Some r) ->
  left = "" /\
  is_Some (graph self) /\
  r = _send_message self (strip value) stream format_exc /\
  _content (user_widget r) = strip value /\
  strip value <> "" /\
  trimmed (strip value) /\
  exists before after,
    blank before /\ blank after /\ value = before +:+ strip value +:+ after.
Proof.
  unfold on_input_submitted.
  destruct (String.eqb (strip value) "") eqn:E; simpl; [done|].
  case_bool_decide as Hg; simpl; [|done].
  intros [= <- <-].
  split; [done|]. split; [done|]. split; [done|]. split; [done|].
  split; [|split; [apply strip_trimmed|apply strip_split]].
  intros H. rewrite H in E. done.
Qed.

End stream_more.

Lemma send_message_final_view_witness :
  Chat._content
    (Chat.reply_widget
       (Chat._send_message Sample.fresh_app "hi" Sample.answered_stream Sample.format_exc))
  = "PONG".
Proof.
  apply (send_message_final_view Sample.fresh_app "hi" Sample.answered_stream
           Sample.format_exc eq_refl).
Defined.

Lemma on_input_submitted_ignored_witness :
  Chat.on_input_submitted Sample.ready_app (utf8 160 +:+ utf8 8195 +:+ " ")
    Sample.answered_stream Sample.format_exc
  = (utf8 160 +:+ utf8 8195 +:+ " ", None).
Proof.
  apply (on_input_submitted_ignored Sample.ready_app (utf8 160 +:+ utf8 8195 +:+ " ")
           Sample.answered_stream Sample.format_exc).
  left. exists [160; 8195; 32]%N. split; [|reflexivity].
  repeat constructor; apply (bool_decide_unpack _); by vm_compute.
Defined.

Lemma on_input_submitted_sent_witness :
  Chat._content
    (Chat.user_widget
       (Chat._send_message Sample.ready_app "hi" Sample.answered_stream Sample.format_exc))
  = strip (utf8 160 +:+ " hi " +:+ utf8 160).
Proof.
  destruct (on_input_submitted_sent Sample.ready_app (utf8 160 +:+ " hi " +:+ utf8 160)
              Sample.answered_stream Sample.format_exc
              (Chat._send_message Sample.ready_app "hi" Sample.answered_stream
                 Sample.format_exc) "" eq_refl)
    as (_ & _ & _ & H & _).
  exact H.
Defined.

(** ** More on the tool registry *)

Section registry_more.
Import Graph Chat.

Context {Client : Type}.
Variable which : string -> option string.
Variable import_client : result unit.
Variable MultiServerMCPClient : Connection -> result Client.
Variable get_tools : Client -> result (list Tool).
Variable open_checkpointer : result unit.

Local Abbreviation resolve_tools :=
  (resolve_tools which import_client MultiServerMCPClient get_tools).
Lemma resolve_tools_cases (self : ChatApp Client) :
  exists app remote note,
    resolve_tools self = (notify app (notify_message note) (notify_severity note)
                            (notify_timeout note), remote ++ BASE_TOOLS) /\
    notifications app = notifications self /\
    thread_id app = thread_id self /\
    graph app = graph self /\
    _mcp_client app =
      match which "brain-mcp", import_client, MultiServerMCPClient local_brain with
      | Some _, Ok _, Ok client => Some client
      | _, _, _ => _mcp_client self
      end.
Proof.
  unfold Chat.resolve_tools, connect_mcp, client_after_failure.
  destruct (which "brain-mcp") as [path|].
  - destruct import_client as [[]|e1]; simpl.
    + destruct (MultiServerMCPClient local_brain) as [client|e2]; simpl.
      * destruct (get_tools client) as [mcp_tools|e3]; simpl.
        -- exists (set_mcp_client self client), mcp_tools,
             (Build_Notification
                ("brain-mcp connected (" +:+ pretty (length mcp_tools) +:+ " tools)")
                information 3). done.
        -- exists (set_mcp_client self client), [],
             (Build_Notification ("brain-mcp failed to connect: " +:+ exc_str e3)
                warning 6). done.
      * exists self, [],
          (Build_Notification ("brain-mcp failed to connect: " +:+ exc_str e2) warning 6).
        done.
    + exists self, [],
        (Build_Notification ("brain-mcp failed to connect: " +:+ exc_str e1) warning 6).
      done.
  - exists self, [],
      (Build_Notification "brain-mcp not found in PATH — running without brain tools"
         warning 6).
    done.
Qed.

(** X22: whatever the discovery does, the resolved tool list ends with
    the static tools, so [web_search] is always offered, and exactly one
    notification is added; thread identifier and graph are left alone. *)
Theorem resolve_tools_always (self : ChatApp Client) :
  exists remote note,
    (resolve_tools self).2 = remote ++ BASE_TOOLS /\
    web_search ∈ (resolve_tools self).2 /\
    notifications (resolve_tools self).1 = notifications self ++ [note] /\
    thread_id (resolve_tools self).1 = thread_id self /\
    graph (resolve_tools self).1 = graph self.
Proof.
  destruct (resolve_tools_cases self) as (app & remote & note & -> & Hn & Ht & Hg & _).
  exists remote, note. simpl. rewrite Hn, Ht, Hg. split; [done|]. split; [|by destruct note].
  apply elem_of_app. right. apply list_elem_of_here.
Qed.

(** X23: the client is stored in [_mcp_client] as soon as its constructor
    has returned, also when [get_tools] then raises; when the executable is
    missing, the import fails or the constructor raises, the attribute is
    left as it was. *)
Theorem resolve_tools_client (self : ChatApp Client) :
  _mcp_client (resolve_tools self).1 =
    match which "brain-mcp", import_client, MultiServerMCPClient local_brain with
    | Some _, Ok _, Ok client => Some client
    | _, _, _ => _mcp_client self
    end.
Proof.
  destruct (resolve_tools_cases self) as (app & remote & note & -> & _ & _ & _ & Hc).
  exact Hc.
Qed.

End registry_more.
